(** * decgen: decorator generator for Go interfaces

    A shallow embedding of [decgen.go], [templates.go] and [cmd] (the
    command's validator), with the properties of the signature-extraction
    and code-synthesis helpers.

    The packages [strings], [go/types], [go/ast], [text/template] and
    [github.com/gojuno/generator] are libraries the program calls.  The
    parts of them the program touches are modelled in the modules
    [GoStrings] and [GoTypes], in [exec] for the execution of a template,
    and as the fields of the records [generator.Generator] and
    [Toolchain], over which the properties are quantified. *)

From Stdlib Require Import ZArith Ascii String List Lia DecimalString.
From Stdlib Require DecimalZ DecimalPos.
From stdpp Require Import gmap strings sorting.

Import ListNotations.
Local Open Scope Z_scope.

(** ** Go's [strings] and [fmt] functions used by the program *)
Module GoStrings.

(** [strings.HasPrefix(s, prefix)] *)
Definition HasPrefix (s pre : string) : bool := String.prefix pre s.

(** [strings.TrimPrefix(s, prefix)]: [s] without the leading [prefix],
    or [s] itself when it does not start with it. *)
Definition TrimPrefix (s pre : string) : string :=
  if HasPrefix s pre
  then String.substring (String.length pre)
         (String.length s - String.length pre)%nat s
  else s.

(** [strings.HasSuffix(s, suffix)]:
    [len(s) >= len(suffix) && s[len(s)-len(suffix):] == suffix]. *)
Definition HasSuffix (s suf : string) : bool :=
  (String.length suf <=? String.length s)%nat
  && String.eqb
       (String.substring (String.length s - String.length suf)%nat
          (String.length suf) s) suf.

(** [strings.TrimSuffix(s, suffix)] *)
Definition TrimSuffix (s suf : string) : string :=
  if HasSuffix s suf
  then String.substring 0 (String.length s - String.length suf)%nat s
  else s.

(** [strings.Join(elems, sep)] *)
Definition Join (elems : list string) (sep : string) : string :=
  String.concat sep elems.

(** The verb [%d] of [fmt.Sprintf] on an [int]. *)
Definition itoa (n : Z) : string := NilZero.string_of_int (Z.to_int n).

End GoStrings.
Import GoStrings.

(** ** The fragment of [go/types] the program inspects *)
Module GoTypes.

(** [types.Type] with the kinds the generator meets in method signatures.
    A [Named] type carries the package path and name of its declaration
    and the type it was declared as; [Var] is a parameter, result or
    field, [Func] a method of an interface. *)
Inductive Type_ : Type :=
| Basic (name : string)
| Named (path name : string) (decl : Type_)
| Pointer (elem : Type_)
| Slice (elem : Type_)
| Map (key elem : Type_)
| Struct (fields : list Var)
| Interface (methods : list Func)
| Sig (s : Signature)
with Signature : Type :=
| mkSignature (params results : list Var) (variadic : bool)
with Var : Type :=
| mkVar (name : string) (typ : Type_)
with Func : Type :=
| mkFunc (name : string) (sig : Signature).

(** The methods [Params()], [Results()] and [Variadic()] of a signature. *)
Definition Params (s : Signature) : list Var :=
  let 'mkSignature ps _ _ := s in ps.
Definition Results (s : Signature) : list Var :=
  let 'mkSignature _ rs _ := s in rs.
Definition Variadic (s : Signature) : bool :=
  let 'mkSignature _ _ v := s in v.

(** [Name()] and [Type()] of a [types.Var]; [Name()] and the signature
    of a [types.Func]. *)
Definition VarName (v : Var) : string := let 'mkVar n _ := v in n.
Definition VarType (v : Var) : Type_ := let 'mkVar _ t := v in t.
Definition FuncName (f : Func) : string := let 'mkFunc n _ := f in n.
Definition FuncType (f : Func) : Signature := let 'mkFunc _ s := f in s.

(** [Underlying()] of a type: the declaration chain is followed
    until a type that is not a defined type is reached. *)
Fixpoint Underlying (t : Type_) : Type_ :=
  match t with
  | Named _ _ d => Underlying d
  | _ => t
  end.

(** The last parameter of a variadic signature is printed as [...T]. *)
Definition dots (variadic : bool) (s : string) : string :=
  if variadic then "..." +:+ TrimPrefix s "[]" else s.

(** [types.Type.String()], after [go/types/typestring.go]: a basic type
    prints its name, a defined type its package-qualified name, the
    composite types their Go syntax. *)
Fixpoint TypeString (t : Type_) : string :=
  match t with
  | Basic n => n
  | Named path n _ => if String.eqb path "" then n else path +:+ "." +:+ n
  | Pointer e => "*" +:+ TypeString e
  | Slice e => "[]" +:+ TypeString e
  | Map k e => "map[" +:+ TypeString k +:+ "]" +:+ TypeString e
  | Struct fs => "struct{" +:+ Join (map VarString fs) "; " +:+ "}"
  | Interface ms => "interface{" +:+ Join (map FuncString ms) "; " +:+ "}"
  | Sig s => "func" +:+ SignatureString s
  end
with SignatureString (s : Signature) : string :=
  match s with
  | mkSignature ps rs v =>
      "(" +:+
      Join ((fix tuple (vs : list Var) : list string :=
               match vs with
               | [] => []
               | [mkVar n t] =>
                   [(if String.eqb n "" then "" else n +:+ " ") +:+
                    dots v (TypeString t)]
               | x :: vs' => VarString x :: tuple vs'
               end) ps) ", " +:+
      ")" +:+
      match rs with
      | [] => ""
      | [mkVar n t] =>
          if String.eqb n "" then " " +:+ TypeString t
          else " (" +:+ n +:+ " " +:+ TypeString t +:+ ")"
      | _ => " (" +:+ Join (map VarString rs) ", " +:+ ")"
      end
  end
with VarString (v : Var) : string :=
  match v with
  | mkVar n t => if String.eqb n "" then TypeString t
                 else n +:+ " " +:+ TypeString t
  end
with FuncString (f : Func) : string :=
  match f with
  | mkFunc n s => n +:+ SignatureString s
  end.

End GoTypes.
Import GoTypes.

(** ** Values, errors and results *)

(** A value of Go type [interface{}] as the templates pass them to the
    template functions: an interface or method name, a method's signature,
    or the boolean a function returned. *)
Inductive value : Type :=
| VString (s : string)
| VSignature (s : Signature)
| VBool (b : bool).

(** Go [error] values.  [Errorf] is [errors.Errorf] or [fmt.Errorf] without
    operands; [ErrorfV] is [fmt.Errorf] with its format string and the value
    printed by [%+v], [ErrorfVE] the same with the error printed by [%v];
    [Wrap] is [errors.Wrap] and [errors.Wrapf] with the message already
    formatted. *)
Inductive error : Type :=
| Errorf (msg : string)
| ErrorfV (format : string) (v : value)
| ErrorfVE (format : string) (v : value) (cause : error)
| Wrap (cause : error) (msg : string).

(** The two ways the program stops without returning: [panic] and
    [log.Fatal]. *)
Inductive abort : Type :=
| GoPanic (msg : string)
| LogFatal (e : error).

(** The result of a Go function returning [(T, error)] that may also stop
    the program. *)
Inductive result (A : Type) : Type :=
| Ok (a : A)
| Err (e : error)
| Abort (a : abort).
Arguments Ok {A} a.
Arguments Err {A} e.
Arguments Abort {A} a.

#[global] Instance result_fmap : FMap result := fun A B f r =>
  match r with
  | Ok a => Ok (f a)
  | Err e => Err e
  | Abort a => Abort a
  end.
#[global] Instance result_ret : MRet result := fun A a => Ok a.
#[global] Instance result_bind : MBind result := fun A B k r =>
  match r with
  | Ok a => k a
  | Err e => Err e
  | Abort a => Abort a
  end.

(** [len(s)] on a slice. *)
Definition len_ {A : Type} (s : list A) : Z := Z.of_nat (length s).

(** [s[i]] on a slice: [None] stands for the run-time panic of an index
    out of range. *)
Definition index {A : Type} (s : list A) (i : Z) : option A :=
  if i <? 0 then None else s !! Z.to_nat i.

(** ** The collaborator [github.com/gojuno/generator] *)

(** [generator.Param]: a parameter or a result of a function. *)
Record Param : Type := mkParam {
  Name : string;
  Type' : string;
  OriginalType : Type_;
  Variadic : bool
}.

(** [generator.ParamSet] *)
Definition ParamSet : Type := list Param.

(** [Param.Pass]: the name of the parameter, followed by [...] when the
    parameter is variadic. *)
Definition Pass (p : Param) : string :=
  if Variadic p then Name p +:+ "..." else Name p.

(** [ast.Expr]: the type expression of a declaration, identified by its
    position in the source. *)
Inductive Expr : Type := ExprAt (pos : Z).

(** The methods of [generator.Generator] that read the loaded program. *)
Module generator.
Record Generator : Type := mkGenerator {
  FuncParams : value -> result ParamSet;
  FuncResults : value -> result ParamSet;
  ExpressionType : Expr -> result Type_;
  PackagePathAndName : string -> string * string
}.
End generator.

(** ** decgen.go: naming and the template functions *)

(** [paramName] returns the name of the parameter for a given index and the
    list of parameters. *)
Definition paramName (index_ : Z) (paramSet : ParamSet) : result string :=
  match index paramSet index_ with
  | None => Abort (GoPanic "index out of range")
  | Some param =>
      if String.eqb (Type' param) "context.Context" && (index_ =? 0) then
        Ok "ctx"
      else if (len_ paramSet =? 2) && (index_ =? 1) then
        Ok "req"
      else
        Ok ("param" +:+ itoa index_)
  end.

(** The error returned when a query of the generator fails:
    [fmt.Errorf(format, f, err)]. *)
Definition orErrorf {A : Type} (r : result A) (format : string) (f : value)
  : result A :=
  match r with
  | Err e => Err (ErrorfVE format f e)
  | _ => r
  end.

(** The loop of [FuncSignature] over [params], at index [i] with [rest]
    still to visit. *)
Fixpoint FuncSignature_names (params : ParamSet) (i : Z) (rest : ParamSet)
    (names : list string) : result (list string) :=
  match rest with
  | [] => Ok names
  | param :: rest' =>
      paramName_ ← paramName i params;
      let paramType := Type' param in
      let paramType :=
        if HasSuffix (Pass param) "..."
        then "..." +:+ TrimPrefix paramType "[]"
        else paramType in
      FuncSignature_names params (i + 1) rest'
        (names ++ [paramName_ +:+ " " +:+ paramType])
  end.

(** [FuncSignature] builds the interface of the method. *)
Definition FuncSignature (g : generator.Generator) (f : value) : result string :=
  params ← orErrorf (generator.FuncParams g f) "failed to get %+v func params: %v" f;
  names ← FuncSignature_names params 0 params [];
  results ← orErrorf (generator.FuncResults g f) "failed to get %+v func results: %v" f;
  let returns := fold_left (fun returns result_ => returns ++ [Type' result_])
                   results [] in
  Ok ("(" +:+ Join names ", " +:+ ") (" +:+ Join returns ", " +:+ ")").

(** The loop of [FuncCall]. *)
Fixpoint FuncCall_names (params : ParamSet) (i : Z) (rest : ParamSet)
    (names : list string) : result (list string) :=
  match rest with
  | [] => Ok names
  | _ :: rest' =>
      name ← paramName i params;
      FuncCall_names params (i + 1) rest' (names ++ [name])
  end.

(** [FuncCall] returns the arguments of the call of the function
    represented by [f]. *)
Definition FuncCall (g : generator.Generator) (f : value) : result string :=
  params ← orErrorf (generator.FuncParams g f) "failed to get %+v func params: %v" f;
  names ← FuncCall_names params 0 params [];
  Ok (Join names ", ").

(** [FuncGRPCAdapterServer] returns the name of the grpc server given the
    client name. *)
Definition FuncGRPCAdapterServer (g : generator.Generator) (server : value)
  : result string :=
  match server with
  | VString s =>
      if negb (HasSuffix s "Client") then
        Err (Errorf "the specified interface wasn't a client")
      else
        let s := TrimSuffix s "Client" in
        let s := s +:+ "Server" in
        Ok s
  | _ => Err (ErrorfV "didn't recieve a string: %+v" server)
  end.

(** The loop of [FuncCallGRPCAdapter]: it breaks at the last index. *)
Fixpoint FuncCallGRPCAdapter_names (params : ParamSet) (i : Z)
    (rest : ParamSet) (names : list string) : result (list string) :=
  match rest with
  | [] => Ok names
  | _ :: rest' =>
      if i =? len_ params - 1 then Ok names
      else
        name ← paramName i params;
        FuncCallGRPCAdapter_names params (i + 1) rest' (names ++ [name])
  end.

(** [FuncCallGRPCAdapter] returns the parameters used to adapt a grpc
    client call to a grpc server. *)
Definition FuncCallGRPCAdapter (g : generator.Generator) (f : value) : result string :=
  params ← orErrorf (generator.FuncParams g f) "failed to get %+v func params: %v" f;
  names ← FuncCallGRPCAdapter_names params 0 params [];
  Ok (Join names ", ").

(** The double-quote character and the Go literal of the empty string. *)
Definition dq : string := String (ascii_of_nat 34) EmptyString.
Definition emptyStringLit : string := dq +:+ dq.

(** The type switch of [FuncReturnErr] on [result.OriginalType]: the
    value it leaves in [emptyValue], or the panic it raises. *)
Definition emptyValue (originalType : Type_) : result string :=
  match originalType with
  | Named _ _ _ =>
      let u := TypeString (Underlying originalType) in
      if String.eqb u "int64" then Ok "0"
      else if String.eqb u "string" then Ok emptyStringLit
      else if String.eqb u "bool" then Ok "false"
      else Abort (GoPanic ("no nil value for named type known: " +:+
                           TypeString originalType +:+ ", " +:+ u))
  | Basic name =>
      if String.eqb name "int64" then Ok "0"
      else if String.eqb name "string" then Ok emptyStringLit
      else if String.eqb name "bool" then Ok "false"
      else Abort (GoPanic ("no nil value for basic type known: " +:+ name))
  | _ => Ok "nil"
  end.

(** The loop of [FuncReturnErr]: it ends at a last result of type
    [error]. *)
Fixpoint FuncReturnErr_values (results : ParamSet) (i : Z) (rest : ParamSet)
    (emptyValues : list string) : result (list string) :=
  match rest with
  | [] => Ok emptyValues
  | result_ :: rest' =>
      if String.eqb (Type' result_) "error" && (i =? len_ results - 1) then
        Ok emptyValues
      else
        v ← emptyValue (OriginalType result_);
        FuncReturnErr_values results (i + 1) rest' (emptyValues ++ [v])
  end.

(** [FuncReturnErr] creates a list of results using their nil values
    excluding the last value if it is an error. *)
Definition FuncReturnErr (g : generator.Generator) (f : value) : result string :=
  results ← orErrorf (generator.FuncResults g f) "failed to get %+v func params: %v" f;
  emptyValues ← FuncReturnErr_values results 0 results [];
  if len_ emptyValues =? 0 then Ok ""
  else Ok (Join emptyValues ", " +:+ ",").

(** The loop shared by [FuncResults] and [FuncReturnOK]: the name bound to
    each result, with [last] for a last result of type [error]. *)
Fixpoint resultArguments_loop (last : string) (results : ParamSet) (i : Z)
    (rest : ParamSet) (resultArguments : list string) : list string :=
  match rest with
  | [] => resultArguments
  | result_ :: rest' =>
      resultArguments_loop last results (i + 1) rest'
        (resultArguments ++
           [if String.eqb (Type' result_) "error" && (i =? len_ results - 1)
            then last else "arg" +:+ itoa i])
  end.

(** [FuncResults] returns the slice of results being returned from a
    function as well as the assignment operator used. *)
Definition FuncResults (g : generator.Generator) (f : value) : result string :=
  results ← orErrorf (generator.FuncResults g f) "failed to get %+v func params: %v" f;
  let resultArguments := resultArguments_loop "err" results 0 results [] in
  assignmentOperator ←
    (if len_ resultArguments =? 1 then
       match index results 0 with
       | None => Abort (GoPanic "index out of range")
       | Some r0 => Ok (if String.eqb (Type' r0) "error" then "=" else ":=")
       end
     else Ok ":=");
  Ok (Join resultArguments ", " +:+ " " +:+ assignmentOperator +:+ " ").

(** [FuncMutates] returns a boolean that denotes if a given function
    mutates things. *)
Definition FuncMutates (g : generator.Generator) (f : value) : result bool := Ok true.

(** [FuncReturnOK] returns the slice of results from a function where if
    the last result is an error it is replaced with nil. *)
Definition FuncReturnOK (g : generator.Generator) (f : value) : result string :=
  results ← orErrorf (generator.FuncResults g f) "failed to get %+v func params: %v" f;
  let resultArguments := resultArguments_loop "nil" results 0 results [] in
  Ok (Join resultArguments ", ").

(** ** decgen.go: the visitor that collects the methods of the interface *)

(** [ast.Node] as [ast.Walk] sees it: a type declaration [ast.TypeSpec]
    with its name and type expression, or any other node; both with the
    nodes below them in source order. *)
#[warnings="-register-all"]
Inductive Node : Type :=
| TypeSpec (name : string) (typ : Expr) (children : list Node)
| OtherNode (children : list Node).

(** Induction on a node with the property for the nodes below it. *)
Fixpoint Node_ind_below (P : Node -> Prop)
    (HT : forall name typ cs, Forall P cs -> P (TypeSpec name typ cs))
    (HO : forall cs, Forall P cs -> P (OtherNode cs))
    (node : Node) {struct node} : P node :=
  match node with
  | TypeSpec name typ cs =>
      HT name typ cs
        ((fix below (cs : list Node) : Forall P cs :=
            match cs with
            | [] => @List.Forall_nil Node P
            | c :: cs' =>
                @List.Forall_cons Node P c cs' (Node_ind_below P HT HO c)
                  (below cs')
            end) cs)
  | OtherNode cs =>
      HO cs
        ((fix below (cs : list Node) : Forall P cs :=
            match cs with
            | [] => @List.Forall_nil Node P
            | c :: cs' =>
                @List.Forall_cons Node P c cs' (Node_ind_below P HT HO c)
                  (below cs')
            end) cs)
  end.

Section Extractor.

(** The state of the world outside the generator: what the validators,
    which are Go closures, may read and write, and the file system the
    output is written to. *)
Context {W : Type}.

(** [type validatorFunc func(s *types.Signature) error]: a validator
    returns its error and the world it leaves. *)
Definition validatorFunc : Type := Signature -> W -> option error * W.

(** [visitor] collects all methods of specified interface. *)
Record visitor : Type := mkVisitor {
  gen : generator.Generator;
  methods : gmap string Signature;
  sname : string;
  validators : list validatorFunc;
  err : option error
}.

(** The inner loop of [processInterface]: the validators run in order on
    one signature and stop at the first error. *)
Fixpoint runValidators (vs : list validatorFunc) (signature : Signature)
    (w : W) : option error * W :=
  match vs with
  | [] => (None, w)
  | validator :: vs' =>
      match validator signature w with
      | (Some e, w') => (Some e, w')
      | (None, w') => runValidators vs' signature w'
      end
  end.

(** The outer loop of [processInterface] over the methods still to
    visit; it returns at the first validator error. *)
Fixpoint processInterface_loop (vs : list validatorFunc) (ms : list Func)
    (mths : gmap string Signature) (w : W)
  : option error * gmap string Signature * W :=
  match ms with
  | [] => (None, mths, w)
  | m :: ms' =>
      let name := FuncName m in
      let signature := FuncType m in
      match runValidators vs signature w with
      | (Some e, w') =>
          (Some (Wrap e ("failed to validate method '" +:+ name +:+ "'")),
           mths, w')
      | (None, w') =>
          processInterface_loop vs ms' (<[name := signature]> mths) w'
      end
  end.

(** [processInterface] processes the interface: the error it returns and
    the visitor with the methods stored so far. *)
Definition processInterface (v : visitor) (t : list Func) (w : W)
  : option error * visitor * W :=
  let '(e, mths, w') := processInterface_loop (validators v) t (methods v) w in
  (e, mkVisitor (gen v) mths (sname v) (validators v) (err v), w').

(** [Visit] is implementation of ast.Visitor interface. *)
Definition Visit (v : visitor) (node : Node) (w : W) : result visitor * W :=
  match node with
  | TypeSpec name typ _ =>
      match generator.ExpressionType (gen v) typ with
      | Err e => (Abort (LogFatal e), w)
      | Abort a => (Abort a, w)
      | Ok exprType =>
          match exprType with
          | Interface t =>
              if negb (String.eqb name (sname v)) then (Ok v, w)
              else
                match err v with
                | None =>
                    let '(e, v', w') := processInterface v t w in
                    (Ok (mkVisitor (gen v') (methods v') (sname v')
                           (validators v') e), w')
                | Some _ => (Ok v, w)
                end
          | _ => (Ok v, w)
          end
      end
  | OtherNode _ => (Ok v, w)
  end.

(** The nodes below a node. *)
Definition children (node : Node) : list Node :=
  match node with
  | TypeSpec _ _ cs => cs
  | OtherNode cs => cs
  end.

(** [ast.Walk(v, node)] for this visitor, whose [Visit] always returns
    the visitor itself: the node is visited, then the nodes below it in
    depth-first order. *)
Fixpoint Walk (v : visitor) (node : Node) (w : W) {struct node}
  : result visitor * W :=
  match Visit v node w with
  | (Ok v1, w1) =>
      (fix walkList (v : visitor) (nodes : list Node) (w : W) {struct nodes}
         : result visitor * W :=
         match nodes with
         | [] => (Ok v, w)
         | n :: nodes' =>
             match Walk v n w with
             | (Ok v', w') => walkList v' nodes' w'
             | r => r
             end
         end)
        v1
        match node with TypeSpec _ _ cs => cs | OtherNode cs => cs end
        w1
  | r => r
  end.

(** The loop of [Generate] over the files of the source package. *)
Fixpoint walkFiles (v : visitor) (files : list Node) (w : W)
  : result visitor * W :=
  match files with
  | [] => (Ok v, w)
  | file :: files' =>
      match Walk v file w with
      | (Ok v', w') => walkFiles v' files' w'
      | r => r
      end
  end.

End Extractor.
Arguments visitor : clear implicits.
Arguments validatorFunc : clear implicits.

(** ** templates.go *)

(** A template of [text/template] in parsed form: literal text, the
    printing of a variable [{{$x}}], of a function applied to a variable
    [{{fn $x}}], the conditional [{{if fn $x}} .. {{else}} .. {{end}}] and
    the loop [{{range $k, $v := .}} .. {{end}}] over the data. *)
#[warnings="-register-all"]
Inductive Action : Type :=
| Text (s : string)
| Print (x : string)
| Call (fn x : string)
| If (fn x : string) (thn els : list Action)
| Range (k v : string) (body : list Action).

Definition Template : Type := list Action.

Definition mutexTemplate : Template := [
  Text "
// ";
  Print "$structName";
  Text " ensures that only one call can be active at a time using a mutext.
type ";
  Print "$structName";
  Text " struct {
	next ";
  Print "$interfaceName";
  Text "
	mutex *sync.Mutex
}

// New";
  Print "$structName";
  Text " returns a new ";
  Print "$structName";
  Text "
func New";
  Print "$structName";
  Text "(next ";
  Print "$interfaceName";
  Text ") *";
  Print "$structName";
  Text " {
	return &";
  Print "$structName";
  Text " {
		next: next,
		mutex: new(sync.Mutex),
	}
}

";
  Range "$methodName" "$method" [
    Text "
	// ";
    Print "$methodName";
    Text " wraps the underlying ";
    Print "$interfaceName";
    Text " implementation with a mutex.
	func (t *";
    Print "$structName";
    Text ") ";
    Print "$methodName";
    Call "signature" "$method";
    Text " {
		t.mutex.Lock()
		defer t.mutex.Unlock()

		var err error
		";
    Call "results" "$method";
    Text " t.next.";
    Print "$methodName";
    Text "(";
    Call "call" "$method";
    Text ")
		if err != nil {
				return ";
    Call "returnerr" "$method";
    Text " errors.WithStack(err)
		}

		return ";
    Call "returnok" "$method";
    Text "
	}
"
  ];
  Text "
"
].

Definition traceTemplate : Template := [
  Text "
// ";
  Print "$structName";
  Text " traces any calls to the next service using opentracing.
type ";
  Print "$structName";
  Text " struct {
		next ";
  Print "$interfaceName";
  Text "
		prefix string
}

// New";
  Print "$structName";
  Text " returns a new ";
  Print "$structName";
  Text "
func New";
  Print "$structName";
  Text "(next ";
  Print "$interfaceName";
  Text ", prefix string) *";
  Print "$structName";
  Text " {
		return &";
  Print "$structName";
  Text " {
				next: next,
				prefix: prefix,
		}
}

";
  Range "$methodName" "$method" [
    Text "
	// ";
    Print "$methodName";
    Text " wraps the underlying ";
    Print "$interfaceName";
    Text " implementation with transactions.
	func (t *";
    Print "$structName";
    Text ") ";
    Print "$methodName";
    Call "signature" "$method";
    Text (" {
		span, ctx := opentracing.StartSpanFromContext(ctx, t.prefix + " +:+ dq +:+ ".");
    Print "$interfaceName";
    Text ".";
    Print "$methodName";
    Text (dq +:+ ")
		defer span.Finish()

		var err error
		");
    Call "results" "$method";
    Text " t.next.";
    Print "$methodName";
    Text "(";
    Call "call" "$method";
    Text ")
		if err != nil {
				return ";
    Call "returnerr" "$method";
    Text " errors.WithStack(err)
		}

		return ";
    Call "returnok" "$method";
    Text "
	}
"
  ];
  Text "
"
].

Definition grpcadapterTemplate : Template := [
  Text "
// ";
  Print "$structName";
  Text " is an adaptor that allows a generated grpc server to be utilized like a client.
type ";
  Print "$structName";
  Text " struct {
		next ";
  Call "grpcadapterclient" "$interfaceName";
  Text "
}

// New";
  Print "$structName";
  Text " returns a new ";
  Print "$structName";
  Text "
func New";
  Print "$structName";
  Text "(next ";
  Call "grpcadapterclient" "$interfaceName";
  Text ") *";
  Print "$structName";
  Text " {
	return &";
  Print "$structName";
  Text " {
			next: next,
	}
}

";
  Range "$methodName" "$method" [
    Text "
	// ";
    Print "$methodName";
    Text " wraps the underlying ";
    Print "$interfaceName";
    Text " and removing the grpc call options.
	func (t *";
    Print "$structName";
    Text ") ";
    Print "$methodName";
    Call "signature" "$method";
    Text " {
		var err error
		";
    Call "results" "$method";
    Text " t.next.";
    Print "$methodName";
    Text "(";
    Call "callgrpcadapter" "$method";
    Text ")
		if err != nil {
			return ";
    Call "returnerr" "$method";
    Text " errors.WithStack(err)
		}

		return ";
    Call "returnok" "$method";
    Text "
	}
"
  ];
  Text "

"
].

Definition sqltxTemplate : Template := [
  Text "
// ";
  Print "$structName";
  Text " manages transactions around repository pattern structs.
type ";
  Print "$structName";
  Text " struct {
		db *sql.DB
		constructor func(tx *sql.Tx) ";
  Print "$interfaceName";
  Text "
}
// New";
  Print "$structName";
  Text " returns a new ";
  Print "$structName";
  Text "
func New";
  Print "$structName";
  Text "(db *sql.DB, constructor func(tx *sql.Tx) ";
  Print "$interfaceName";
  Text ") *";
  Print "$structName";
  Text " {
		return &";
  Print "$structName";
  Text " {
				db: db,
				constructor: constructor,
		}
}

";
  Range "$methodName" "$method" [
    Text "
	// ";
    Print "$methodName";
    Text " wraps the underlying ";
    Print "$interfaceName";
    Text " implementation with transactions.
	func (t *";
    Print "$structName";
    Text ") ";
    Print "$methodName";
    Call "signature" "$method";
    Text " {
		";
    If "mutates" "$methodName" [
      Text "
			tx, err := t.db.Begin()
			if err != nil {
				return ";
      Call "returnerr" "$method";
      Text (" errors.New(" +:+ dq +:+ "unable to start transaction" +:+ dq +:+ ")
			}
	
			defer func(){
				if p := recover(); p != nil {
					tx.Rollback()
					panic(p)
				}
			}()

			repository := t.constructor(tx)
	
			");
      Call "results" "$method";
      Text " repository.";
      Print "$methodName";
      Text "(";
      Call "call" "$method";
      Text ")
			if err != nil {
					txErr := tx.Rollback()
					if txErr != nil {
							// handle rollback failed
							return ";
      Call "returnerr" "$method";
      Text (" errors.Wrapf(err, " +:+ dq +:+ "failed to rollback transaction for error (%v)" +:+ dq +:+ ", txErr)
					}
					return ");
      Call "returnerr" "$method";
      Text " errors.WithStack(err)
			}

			err = tx.Commit()
			if err != nil {
					// handle failed commit
					return ";
      Call "returnerr" "$method";
      Text " errors.WithStack(err)
			}

			return ";
      Call "returnok" "$method";
      Text "
		"
    ] [
      Text "
			repository := t.constructor(t.db)

			";
      Call "results" "$method";
      Text " repository.";
      Print "$methodName";
      Text "(";
      Call "call" "$method";
      Text ")
			if err != nil {
					return ";
      Call "returnerr" "$method";
      Text " errors.WithStack(err)
			}

			return ";
      Call "returnok" "$method";
      Text "
	"
    ];
    Text "
	}
"
  ];
  Text "
"
].

Definition Templates : list (string * Template) := [
  ("sqltx", sqltxTemplate);
  ("trace", traceTemplate);
  ("grpcadapter", grpcadapterTemplate);
  ("mutex", mutexTemplate)
].

(** [decgen.Templates[decType]] *)
Definition lookup_assoc {A : Type} (l : list (string * A)) (k : string)
  : option A :=
  snd <$> List.find (fun kv => String.eqb (fst kv) k) l.

(** ** Execution of a template, after [text/template] *)

(** A function registered with [AddTemplateFunc]. *)
Definition templateFunc : Type := value -> result value.

(** How an action prints a value. *)
Definition printValue (v : value) : string :=
  match v with
  | VString s => s
  | VSignature s => TypeString (Sig s)
  | VBool b => if b then "true" else "false"
  end.

(** The truth of a value in [{{if}}]. *)
Definition truth (v : value) : bool :=
  match v with
  | VString s => negb (String.eqb s "")
  | VSignature _ => true
  | VBool b => b
  end.

(** [range] visits the entries of a map in the order of their keys. *)
Definition byName (a b : string * Signature) : Prop :=
  String.leb (fst a) (fst b) = true.
#[global] Instance byName_dec (a b : string * Signature)
  : Decision (byName a b) := bool_eq_dec _ _.

Definition sortedMethods (data : gmap string Signature)
  : list (string * Signature) :=
  merge_sort byName (map_to_list data).

Section Execute.

Variable funcs : list (string * templateFunc).
Variable data : list (string * Signature).

Definition variable (env : list (string * value)) (x : string)
  : result value :=
  match lookup_assoc env x with
  | Some v => Ok v
  | None => Err (Errorf ("undefined variable: " +:+ x))
  end.

Definition apply (fn : string) (v : value) : result value :=
  match lookup_assoc funcs fn with
  | Some f => f v
  | None => Err (Errorf ("function not defined: " +:+ fn))
  end.

Fixpoint exec (env : list (string * value)) (a : Action) {struct a}
  : result string :=
  let execList :=
    fix execList (env : list (string * value)) (l : list Action)
        {struct l} : result string :=
      match l with
      | [] => Ok ""
      | a' :: l' =>
          s1 ← exec env a'; s2 ← execList env l'; Ok (s1 +:+ s2)
      end in
  match a with
  | Text s => Ok s
  | Print x => printValue <$> variable env x
  | Call fn x => v ← variable env x; printValue <$> apply fn v
  | If fn x thn els =>
      v ← variable env x;
      c ← apply fn v;
      if truth c then execList env thn else execList env els
  | Range k v body =>
      (fix each (entries : list (string * Signature)) : result string :=
         match entries with
         | [] => Ok ""
         | (name, sig) :: entries' =>
             s1 ← execList ((k, VString name) :: (v, VSignature sig) :: env)
                    body;
             s2 ← each entries';
             Ok (s1 +:+ s2)
         end) data
  end.

Fixpoint execList (env : list (string * value)) (l : list Action)
  : result string :=
  match l with
  | [] => Ok ""
  | a :: l' => s1 ← exec env a; s2 ← execList env l'; Ok (s1 +:+ s2)
  end.

End Execute.

(** ** decgen.go: [Generate] *)

(** What [Generate] sets on the generator before it renders: the package
    name, the template variables, the template functions and the
    imports. *)
Record Settings : Type := mkSettings {
  packageName : string;
  vars : list (string * string);
  templateFuncs : list (string * templateFunc);
  imports : list (string * string)
}.

(** The template functions [Generate] registers, in its order. *)
Definition registeredFuncs (gen : generator.Generator)
  : list (string * templateFunc) := [
  ("call", fun f => VString <$> FuncCall gen f);
  ("signature", fun f => VString <$> FuncSignature gen f);
  ("returnerr", fun f => VString <$> FuncReturnErr gen f);
  ("results", fun f => VString <$> FuncResults gen f);
  ("returnok", fun f => VString <$> FuncReturnOK gen f);
  ("callgrpcadapter", fun f => VString <$> FuncCallGRPCAdapter gen f);
  ("mutates", fun f => VBool <$> FuncMutates gen f);
  ("grpcadapterclient", fun f => VString <$> FuncGRPCAdapterServer gen f)
].

(** The environment a template starts in: each variable [x] set with
    [SetVar] is read as [$x]. *)
Definition initialEnv (s : Settings) : list (string * value) :=
  map (fun kv => ("$" +:+ fst kv, VString (snd kv))) (vars s).

(** The text a template renders to over the collected methods. *)
Definition render (s : Settings) (template : Template)
    (data : gmap string Signature) : result string :=
  execList (templateFuncs s) (sortedMethods data) (initialEnv s) template.

Section Generate.

Context {W Program : Type}.

(** What [Generate] calls outside this package: [generator.PackageOf],
    [filepath.Dir], the loader, the files of a loaded package,
    [generator.New], and the generator's [ProcessTemplate] and
    [WriteToFilename]; the last one acts on the file system. *)
Record Toolchain : Type := mkToolchain {
  PackageOf : string -> result string;
  Dir : string -> string;
  Load : list string -> result Program;
  PackageFiles : Program -> string -> list Node;
  New : Program -> generator.Generator;
  ProcessTemplate :
    Settings -> string -> Template -> gmap string Signature -> result string;
  WriteToFilename : Settings -> string -> string -> W -> option error * W
}.

(** [Generator] is capable of generating a decorator using its
    template. *)
Record Generator : Type := mkGenerator {
  template : Template;
  validators_ : list (validatorFunc W)
}.

(** [NewGenerator] returns a new generator. *)
Definition NewGenerator (template : Template)
    (validators : list (validatorFunc W)) : Generator :=
  mkGenerator template validators.

Variable tc : Toolchain.

(** [createProgram] creates the program. *)
Definition createProgram (g : Generator) (sourcePath destPath : string)
  : result Program :=
  Load tc [sourcePath; destPath; "github.com/volatiletech/sqlboiler/boil"].

(** [errors.Wrap] on the error of a result. *)
Definition wrap {A : Type} (r : result A) (msg : string) : result A :=
  match r with
  | Err e => Err (Wrap e msg)
  | _ => r
  end.

(** The part of [Generate] that sets up the generator: the package name,
    the variables [structName] and [interfaceName], the template functions
    and the import of the destination package. *)
Definition configure (gen : generator.Generator)
    (sourcePath destPath interfaceName outputStruct : string) : Settings :=
  let sourcePackageName :=
    snd (generator.PackagePathAndName gen sourcePath) in
  let destPackageName :=
    snd (generator.PackagePathAndName gen destPath) in
  mkSettings destPackageName
    [("structName", outputStruct);
     ("interfaceName",
      if negb (String.eqb sourcePath destPath)
      then sourcePackageName +:+ "." +:+ interfaceName
      else interfaceName)]
    (registeredFuncs gen)
    [(destPath, "")].

(** The last two steps of [Generate]: the template is processed over the
    collected methods and the result is written to the output file. *)
Definition processAndWrite (settings : Settings) (template : Template)
    (methods : gmap string Signature) (outputFile : string) (w : W)
  : result unit * W :=
  match ProcessTemplate tc settings "interface" template methods with
  | Err e => (Err (Wrap e "failed to process template"), w)
  | Abort a => (Abort a, w)
  | Ok text =>
      match WriteToFilename tc settings text outputFile w with
      | (Some e, w2) => (Err (Wrap e "failed to write file"), w2)
      | (None, w2) => (Ok tt, w2)
      end
  end.

(** [Generate] generates an implementation of an interface that
    decorates another implementation of the interface. *)
Definition Generate (g : Generator)
    (template : Template)
    (sourcePackage interfaceName outputFile outputStruct : string) (w : W)
  : result unit * W :=
  match
    sourcePath ← wrap (PackageOf tc sourcePackage) "failed to get sourcePath";
    destPath ← wrap (PackageOf tc (Dir tc outputFile)) "failed to get destPath";
    program ← wrap (createProgram g sourcePath destPath)
                "failed to create program";
    Ok (sourcePath, destPath, program)
  with
  | Err e => (Err e, w)
  | Abort a => (Abort a, w)
  | Ok (sourcePath, destPath, program) =>
      let gen := New tc program in
      let settings :=
        configure gen sourcePath destPath interfaceName outputStruct in
      let v := mkVisitor gen ∅ interfaceName (validators_ g) None in
      match walkFiles v (PackageFiles tc program sourcePath) w with
      | (Err e, w1) => (Err e, w1)
      | (Abort a, w1) => (Abort a, w1)
      | (Ok v, w1) =>
          match err v with
          | Some e => (Err (Wrap e "failed to parse interface"), w1)
          | None =>
              processAndWrite settings template (methods v) outputFile w1
          end
      end
  end.

End Generate.
Arguments Toolchain : clear implicits.
Arguments Generator : clear implicits.

(** ** cmd: the validator the command registers *)

(** The function [fn] of [Execute]: the first parameter must be
    [context.Context]. *)
Definition fn {W : Type} : validatorFunc W := fun s w =>
  (match Params s with
   | [] => Some (Errorf "first param must be context.Context")
   | p0 :: _ =>
       if negb (String.eqb (TypeString (VarType p0)) "context.Context")
       then Some (Errorf "first param must be context.Context")
       else None
   end, w).

(** ** cmd: [Execute] *)
Module cmd.

(** The flags [-i], [-s], [-o] and [-t] and the arguments left after
    them. *)
Record Flags : Type := mkFlags {
  interfaceName : string;
  structName : string;
  outputFile : string;
  decType : string;
  args : list string
}.

(** How [Execute] ends: after [flag.Usage] with [os.Exit(1)], in
    [log.Fatal] on the error of [Generate], in a stop inside [Generate],
    or by returning. *)
Inductive status : Type :=
| Usage
| Fatal (e : error)
| Stopped (a : abort)
| Returned.

(** [Execute] runs the generator the flags ask for. *)
Definition Execute {W Program : Type} (tc : Toolchain W Program)
    (flags : Flags) (w : W) : status * W :=
  if String.eqb (interfaceName flags) "" || String.eqb (outputFile flags) ""
     || negb (len_ (args flags) =? 1) || String.eqb (decType flags) ""
  then (Usage, w)
  else
    match lookup_assoc Templates (decType flags) with
    | None => (Usage, w)
    | Some template =>
        let structName :=
          if String.eqb (structName flags) ""
          then interfaceName flags +:+ "Tracer"
          else structName flags in
        let gen := NewGenerator template [fn] in
        match Generate tc gen template (nth 0 (args flags) "")
                (interfaceName flags) (outputFile flags) structName w with
        | (Ok _, w') => (Returned, w')
        | (Err e, w') => (Fatal e, w')
        | (Abort a, w') => (Stopped a, w')
        end
    end.

End cmd.

(** ** Which template functions a template invokes *)

(** [invokes fn a]: the action [a] applies the template function [fn]. *)
Fixpoint invokes (fn : string) (a : Action) : bool :=
  match a with
  | Text _ | Print _ => false
  | Call f _ => String.eqb f fn
  | If f _ thn els =>
      String.eqb f fn || existsb (invokes fn) thn || existsb (invokes fn) els
  | Range _ _ body => existsb (invokes fn) body
  end.

Definition templateInvokes (fn : string) (t : Template) : bool :=
  existsb (invokes fn) t.

(** ** The declarations a walk visits *)

(** The type declarations below a node, in the order [ast.Walk] meets
    them: each with its name and type expression. *)
Fixpoint typeSpecs (node : Node) : list (string * Expr) :=
  match node with
  | TypeSpec name typ cs => (name, typ) :: flat_map typeSpecs cs
  | OtherNode cs => flat_map typeSpecs cs
  end.

(** [Visit] on each of a list of type declarations in turn. *)
Fixpoint visitSpecs {W : Type} (v : visitor W) (specs : list (string * Expr))
    (w : W) : result (visitor W) * W :=
  match specs with
  | [] => (Ok v, w)
  | (name, typ) :: specs' =>
      match Visit v (TypeSpec name typ []) w with
      | (Ok v', w') => visitSpecs v' specs' w'
      | r => r
      end
  end.

(** A declaration declares the interface [sname] when it has that name and
    its type expression is an interface type. *)
Definition declaresInterface (gen : generator.Generator) (sname : string)
    (spec : string * Expr) : Prop :=
  fst spec = sname /\
  exists t, generator.ExpressionType gen (snd spec) = Ok (Interface t).

(** The type expression of a declaration has a type. *)
Definition resolves (gen : generator.Generator) (spec : string * Expr) : Prop :=
  exists t, generator.ExpressionType gen (snd spec) = Ok t.

(** The methods stored for an interface all of whose methods pass. *)
Definition collect (t : list Func) (mths : gmap string Signature)
  : gmap string Signature :=
  foldl (fun m f => <[FuncName f := FuncType f]> m) mths t.

(** ** Notions used to state the properties *)

(** The indices [a], [a+1], .., [a+n-1] a [range] loop runs through. *)
Definition indices (a n : nat) : list Z := map Z.of_nat (seq a n).

(** The name [paramName] gives to the parameter at an index that is in
    range. *)
Definition nameAt (paramSet : ParamSet) (i : Z) : string :=
  match paramName i paramSet with
  | Ok s => s
  | _ => ""
  end.

(** The names of all the parameters, in their order. *)
Definition paramNames (paramSet : ParamSet) : list string :=
  map (nameAt paramSet) (indices 0 (length paramSet)).

(** A result is the terminal error when it is the last one and its type
    is [error]. *)
Definition isTerminalError (results : ParamSet) (i : nat) (r : Param) : Prop :=
  Type' r = "error" /\ S i = length results.

(** The names bound to the results: [terminal] for the terminal error,
    [arg<i>] for the result at any other index [i]. *)
Definition bindings (terminal : string) (results : ParamSet) : list string :=
  imap (fun i r => if decide (isTerminalError results i r) then terminal
                   else "arg" +:+ itoa (Z.of_nat i)) results.

(** The results that are given an empty value on the error path: all of
    them but the terminal error. *)
Definition nonTerminal (results : ParamSet) : ParamSet :=
  match last results with
  | Some r => if String.eqb (Type' r) "error" then removelast results
              else results
  | None => results
  end.

(** A parameter with its variadic mark removed. *)
Definition clearVariadic (p : Param) : Param :=
  mkParam (Name p) (Type' p) (OriginalType p) false.

(** The statements of the templates that return on the error path and on
    the success path. *)
Definition errorReturn : Template :=
  [Text "return "; Call "returnerr" "$method"; Text " errors.WithStack(err)"].
Definition successReturn : Template :=
  [Text "return "; Call "returnok" "$method"].

(** The actions of a template in the order of its text, the branches of a
    conditional and the body of a loop in place; the conditional leaves a
    mark. *)
Fixpoint leaves (a : Action) : list Action :=
  match a with
  | Text _ | Print _ | Call _ _ => [a]
  | If fn x thn els =>
      If fn x [] [] :: flat_map leaves thn ++ flat_map leaves els
  | Range _ _ body => flat_map leaves body
  end.

(** How often a template prints the function [fn]. *)
Definition countCalls (fn : string) (t : Template) : nat :=
  length (List.filter (fun a => match a with
                           | Call f _ => String.eqb f fn
                           | _ => false
                           end) (flat_map leaves t)).

(** How often the function [fn] is printed right after a text that ends in
    [before] and right before a text that starts with [after]. *)
Fixpoint countBetweenIn (before fn after : string) (l : list Action) : nat :=
  match l with
  | [] => 0
  | a :: l' =>
      (match a, l' with
       | Text s1, Call f _ :: Text s2 :: _ =>
           if HasSuffix s1 before && String.eqb f fn && HasPrefix s2 after
           then 1 else 0
       | _, _ => 0
       end + countBetweenIn before fn after l')%nat
  end.

Definition countBetween (before fn after : string) (t : Template) : nat :=
  countBetweenIn before fn after (flat_map leaves t).

(** Every printing of [fn] in the template stands between a text ending
    in [before] and a text starting with [after], and there is one. *)
Definition everyCallBetween (before fn after : string) (t : Template) : bool :=
  (countCalls fn t =? countBetween before fn after t)%nat
  && (0 <? countCalls fn t)%nat.

(** An unnamed type whose zero value is [nil]: a pointer, slice, map,
    interface or function type. *)
Definition nilable (t : Type_) : Prop :=
  match t with
  | Pointer _ | Slice _ | Map _ _ | Interface _ | Sig _ => True
  | _ => False
  end.

(** The basic types [FuncReturnErr] knows an empty value for. *)
Definition knownBasic : list string := ["int64"; "string"; "bool"].

(** The call of the wrapped implementation in the mutex and trace
    templates. *)
Definition delegateCall : Template :=
  [Text " t.next."; Print "$methodName"; Text "("; Call "call" "$method";
   Text ")"].

(** The type a parameter is printed with in the signature of the
    generated method. *)
Definition signatureType (p : Param) : string :=
  if HasSuffix (Pass p) "..." then "..." +:+ TrimPrefix (Type' p) "[]"
  else Type' p.



(** The names of the decorator types. *)
Definition decoratorTypes : list string :=
  ["sqltx"; "trace"; "grpcadapter"; "mutex"].

(** The loop of [range] over the entries of the data, as [exec] runs
    it. *)
Fixpoint execEntries (funcs : list (string * templateFunc))
    (data : list (string * Signature)) (k v : string)
    (env : list (string * value)) (body : list Action)
    (entries : list (string * Signature)) : result string :=
  match entries with
  | [] => Ok ""
  | (name, sig) :: entries' =>
      s1 ← execList funcs data
             ((k, VString name) :: (v, VSignature sig) :: env) body;
      s2 ← execEntries funcs data k v env body entries';
      Ok (s1 +:+ s2)
  end.

(** A list of actions prints the function [fn] of the method. *)
Definition callsIn (fn : string) (l : list Action) : bool :=
  existsb (fun a => match a with
                    | Call f x => String.eqb f fn && String.eqb x "$method"
                    | _ => false
                    end) l.

(** The body of a loop prints [fn] of the method on every pass: in the
    body itself or in the branch taken when [mutates] holds. *)
Definition reaches (fn : string) (body : list Action) : bool :=
  callsIn fn body
  || existsb (fun a => match a with
                       | If f x thn _ =>
                           String.eqb f "mutates"
                           && String.eqb x "$methodName" && callsIn fn thn
                       | _ => false
                       end) body.

(** A template prints [fn] of every method of the data. *)
Definition callsPerMethod (fn : string) (t : Template) : bool :=
  existsb (fun a => match a with
                    | Range k v body =>
                        String.eqb k "$methodName" && String.eqb v "$method"
                        && reaches fn body
                    | _ => false
                    end) t.

(** ** A generator to run the definitions on examples *)

(** The parameters or results [gojuno/generator] reports for the variables
    of a signature: each with its name, its printed type and its type, the
    last one variadic when the signature is. *)
Fixpoint paramsOf (variadic : bool) (vs : list Var) : ParamSet :=
  match vs with
  | [] => []
  | [v] => [mkParam (VarName v) (TypeString (VarType v)) (VarType v) variadic]
  | v :: vs' =>
      mkParam (VarName v) (TypeString (VarType v)) (VarType v) false
      :: paramsOf variadic vs'
  end.

(** A generator over a program given by the types of its type
    expressions. *)
Definition sampleGenerator (types : list (Z * Type_)) : generator.Generator :=
  generator.mkGenerator
    (fun f => match f with
              | VSignature s => Ok (paramsOf (GoTypes.Variadic s) (Params s))
              | _ => Err (Errorf "unsupported type")
              end)
    (fun f => match f with
              | VSignature s => Ok (paramsOf false (Results s))
              | _ => Err (Errorf "unsupported type")
              end)
    (fun e => match e with
              | ExprAt pos =>
                  match List.find (fun kv => fst kv =? pos) types with
                  | Some kv => Ok (snd kv)
                  | None => Err (Errorf "unknown expression")
                  end
              end)
    (fun path => (path, path)).

(** Some types and signatures of a client package. *)
Definition contextContext : Type_ := Named "context" "Context" (Interface []).
Definition errorType : Type_ :=
  Named "" "error"
    (Interface [mkFunc "Error" (mkSignature [] [mkVar "" (Basic "string")] false)]).
Definition requestPtr : Type_ := Pointer (Named "pkg" "Request" (Struct [])).
Definition responsePtr : Type_ := Pointer (Named "pkg" "Response" (Struct [])).

(** [Do(ctx context.Context, req *Request)], returning a [*Response] and
    an [error]. *)
Definition sigDo : Signature :=
  mkSignature [mkVar "ctx" contextContext; mkVar "in" requestPtr]
    [mkVar "" responsePtr; mkVar "" errorType] false.

(** [Get(ctx context.Context, in *Request, opts ...string)], returning a
    [*Response] and an [error]. *)
Definition sigGet : Signature :=
  mkSignature [mkVar "ctx" contextContext; mkVar "in" requestPtr;
               mkVar "opts" (Slice (Basic "string"))]
    [mkVar "" responsePtr; mkVar "" errorType] true.

(** [Close(ctx context.Context) error] *)
Definition sigClose : Signature :=
  mkSignature [mkVar "ctx" contextContext] [mkVar "" errorType] false.

(** [Count(ctx context.Context) (int, error)] *)
Definition sigCount : Signature :=
  mkSignature [mkVar "ctx" contextContext]
    [mkVar "" (Basic "int"); mkVar "" errorType] false.

(** [Bad(id string) error]: its first parameter is not a context. *)
Definition sigBad : Signature :=
  mkSignature [mkVar "id" (Basic "string")] [mkVar "" errorType] false.

(** A tool chain to run [Generate] on examples.  The world is the list
    of the events so far: the validations and the files written.  The
    program is the list of its files; templates are rendered by [render]. *)
Definition sampleToolchain (files : list Node) (types : list (Z * Type_))
  : Toolchain (list string) (list Node) :=
  mkToolchain
    (fun pkg => Ok pkg)
    (fun file => ".")
    (fun imports => Ok files)
    (fun program path => program)
    (fun program => sampleGenerator types)
    (fun settings name template data => render settings template data)
    (fun settings text file w => (None, w ++ ["write " +:+ file])).

(** The validator of the command, recording each signature it is asked
    to validate. *)
Definition recordingFn : validatorFunc (list string) := fun s w =>
  fn s (w ++ ["validate " +:+ SignatureString s]).

(** A package that declares the interface [Service], with the methods
    [Bad] and [Close], and the struct [Config]. *)
Definition serviceMethods : list Func :=
  [mkFunc "Bad" sigBad; mkFunc "Close" sigClose].
Definition samplePackage : list Node :=
  [OtherNode [OtherNode [TypeSpec "Service" (ExprAt 1) []];
              OtherNode [TypeSpec "Config" (ExprAt 2) []]]].
Definition sampleTypes : list (Z * Type_) :=
  [(1, Interface serviceMethods); (2, Struct [])].

(** * Properties *)

(** ** Facts on strings *)
Section StringFacts.

Lemma string_app_cons (c : ascii) (s t : string) :
  String c s +:+ t = String c (s +:+ t).
Proof. reflexivity. Qed.

Lemma string_length_app (s t : string) :
  String.length (s +:+ t) = (String.length s + String.length t)%nat.
Proof.
  induction s as [|c s IH]; [reflexivity|].
  rewrite string_app_cons. simpl. now rewrite IH.
Qed.

Lemma substring_all (s : string) : substring 0 (String.length s) s = s.
Proof. induction s as [|c s IH]; simpl; [reflexivity | now rewrite IH]. Qed.

Lemma substring_app_skip (p s : string) :
  substring (String.length p) (String.length s) (p +:+ s) = s.
Proof.
  induction p as [|c p IH]; [apply substring_all|].
  rewrite string_app_cons. simpl. exact IH.
Qed.

Lemma substring_app_take (p s : string) :
  substring 0 (String.length p) (p +:+ s) = p.
Proof.
  induction p as [|c p IH]; [now destruct s|].
  rewrite string_app_cons. simpl. now rewrite IH.
Qed.

Lemma substring_split (s : string) (n : nat) :
  (n <= String.length s)%nat ->
  s = substring 0 n s +:+ substring n (String.length s - n) s.
Proof.
  revert n. induction s as [|c s IH]; intros n Hn; simpl in *.
  - now destruct n.
  - destruct n as [|n]; simpl.
    + now rewrite substring_all.
    + rewrite string_app_cons. f_equal. apply IH. lia.
Qed.

Lemma HasSuffix_app (p suf : string) : HasSuffix (p +:+ suf) suf = true.
Proof.
  unfold HasSuffix. rewrite string_length_app.
  replace (String.length p + String.length suf - String.length suf)%nat
    with (String.length p) by lia.
  rewrite substring_app_skip, String.eqb_refl, andb_true_r.
  apply Nat.leb_le. lia.
Qed.

Lemma TrimSuffix_app (p suf : string) : TrimSuffix (p +:+ suf) suf = p.
Proof.
  unfold TrimSuffix. rewrite HasSuffix_app, string_length_app.
  replace (String.length p + String.length suf - String.length suf)%nat
    with (String.length p) by lia.
  apply substring_app_take.
Qed.

Lemma HasSuffix_inv (s suf : string) :
  HasSuffix s suf = true -> s = TrimSuffix s suf +:+ suf.
Proof.
  intros H. unfold TrimSuffix. rewrite H. unfold HasSuffix in H.
  apply andb_true_iff in H as [Hle Heq].
  apply Nat.leb_le in Hle. apply String.eqb_eq in Heq.
  rewrite (substring_split s (String.length s - String.length suf)) at 1
    by lia.
  f_equal.
  replace (String.length s - (String.length s - String.length suf))%nat
    with (String.length suf) by lia.
  exact Heq.
Qed.

Lemma HasSuffix_false (s suf : string) :
  (forall p, s <> p +:+ suf) -> HasSuffix s suf = false.
Proof.
  intros H. destruct (HasSuffix s suf) eqn:E; [|reflexivity].
  exfalso. exact (H _ (HasSuffix_inv _ _ E)).
Qed.

End StringFacts.

(** ** Execution of a template, step by step *)
Section ExecuteFacts.

Variable funcs : list (string * templateFunc).
Variable data : list (string * Signature).

Lemma execList_Text env s l :
  execList funcs data env (Text s :: l) =
  (s2 ← execList funcs data env l; Ok (s +:+ s2)).
Proof. reflexivity. Qed.

Lemma execList_Print env x v l :
  lookup_assoc env x = Some v ->
  execList funcs data env (Print x :: l) =
  (s2 ← execList funcs data env l; Ok (printValue v +:+ s2)).
Proof. intros H. simpl. unfold variable. now rewrite H. Qed.

Lemma execList_Call env fn x v f l :
  lookup_assoc env x = Some v ->
  lookup_assoc funcs fn = Some f ->
  execList funcs data env (Call fn x :: l) =
  (s1 ← printValue <$> f v;
   s2 ← execList funcs data env l; Ok (s1 +:+ s2)).
Proof. intros Hx Hf. simpl. unfold variable, apply. now rewrite Hx, Hf. Qed.

End ExecuteFacts.

(** ** The adapter's suffix rule *)

(** C7. For the RPC adapter, an interface name that ends in [Client]
    yields the name with [Client] replaced by [Server] ([FooClient] gives
    [FooServer]); a name that does not end in [Client] ([Foo]) is an
    error, which stops the rendering of the adapter template; and of the
    four templates only the adapter's applies this function. *)
Theorem FuncGRPCAdapterServer_suffix_rule (g : generator.Generator) :
  (forall p : string,
     FuncGRPCAdapterServer g (VString (p +:+ "Client"))
     = Ok (p +:+ "Server")) /\
  (forall s : string,
     (forall p, s <> p +:+ "Client") ->
     FuncGRPCAdapterServer g (VString s)
     = Err (Errorf "the specified interface wasn't a client")) /\
  FuncGRPCAdapterServer g (VString "FooClient") = Ok "FooServer" /\
  FuncGRPCAdapterServer g (VString "Foo")
  = Err (Errorf "the specified interface wasn't a client") /\
  (forall (s pkg structName : string) imps data,
     (forall p, s <> p +:+ "Client") ->
     render (mkSettings pkg [("structName", structName); ("interfaceName", s)]
               (registeredFuncs g) imps)
       grpcadapterTemplate data
     = Err (Errorf "the specified interface wasn't a client")) /\
  (forall name t,
     In (name, t) Templates ->
     templateInvokes "grpcadapterclient" t = true <-> name = "grpcadapter").
Proof.
  assert (Hok : forall p, FuncGRPCAdapterServer g (VString (p +:+ "Client"))
                          = Ok (p +:+ "Server")).
  { intros p. unfold FuncGRPCAdapterServer.
    now rewrite HasSuffix_app, TrimSuffix_app. }
  assert (Hno : forall s, (forall p, s <> p +:+ "Client") ->
                FuncGRPCAdapterServer g (VString s)
                = Err (Errorf "the specified interface wasn't a client")).
  { intros s Hs. unfold FuncGRPCAdapterServer.
    now rewrite (HasSuffix_false _ _ Hs). }
  split; [exact Hok|]. split; [exact Hno|].
  split; [exact (Hok "Foo")|]. split; [reflexivity|]. split.
  - intros s pkg structName imps data Hs.
    unfold render, grpcadapterTemplate.
    rewrite execList_Text.
    erewrite execList_Print by reflexivity.
    rewrite execList_Text.
    erewrite execList_Print by reflexivity.
    rewrite execList_Text.
    erewrite execList_Call by reflexivity.
    cbn [fst snd]. rewrite (Hno s Hs). reflexivity.
  - intros name t Hin. simpl in Hin.
    destruct Hin as [H|[H|[H|[H|[]]]]]; inversion H; subst; clear H;
      vm_compute; split; congruence.
Qed.

(** The suffix rule on [BarClient] and on [Bar]. *)
Lemma FuncGRPCAdapterServer_suffix_rule_witness :
  FuncGRPCAdapterServer (sampleGenerator []) (VString ("Bar" +:+ "Client"))
  = Ok ("Bar" +:+ "Server") /\
  FuncGRPCAdapterServer (sampleGenerator []) (VString "Bar")
  = Err (Errorf "the specified interface wasn't a client").
Proof.
  split.
  - exact (proj1 (FuncGRPCAdapterServer_suffix_rule (sampleGenerator []))
             "Bar").
  - refine (proj1 (proj2 (FuncGRPCAdapterServer_suffix_rule
                            (sampleGenerator []))) "Bar" _).
    intros p Hp. apply (f_equal (fun s => HasSuffix s "Client")) in Hp.
    rewrite HasSuffix_app in Hp. discriminate Hp.
Defined.

(** ** The naming of parameters *)
Section Naming.

Lemma index_app_r {A : Type} (pre rest : list A) (x : A) :
  index (pre ++ x :: rest) (len_ pre) = Some x.
Proof.
  unfold index, len_.
  destruct (Z.ltb_spec (Z.of_nat (length pre)) 0) as [H|_]; [lia|].
  rewrite Nat2Z.id. now apply list_lookup_middle.
Qed.

Lemma paramName_in_range (paramSet : ParamSet) (i : Z) (p : Param) :
  index paramSet i = Some p -> paramName i paramSet = Ok (nameAt paramSet i).
Proof.
  intros H. unfold nameAt, paramName. rewrite H.
  destruct (_ && _); [reflexivity|]. now destruct (_ && _).
Qed.

Lemma len_app_cons {A : Type} (pre : list A) (x : A) :
  len_ (pre ++ [x]) = len_ pre + 1.
Proof. unfold len_. rewrite List.length_app. simpl. lia. Qed.

Lemma indices_cons (a n : nat) :
  indices a (S n) = Z.of_nat a :: indices (S a) n.
Proof. reflexivity. Qed.

Lemma FuncCall_names_spec (params pre rest : ParamSet) (acc : list string) :
  params = pre ++ rest ->
  FuncCall_names params (len_ pre) rest acc
  = Ok (acc ++ map (nameAt params) (indices (length pre) (length rest))).
Proof.
  revert pre acc. induction rest as [|x rest IH]; intros pre acc ->.
  - simpl. now rewrite List.app_nil_r.
  - cbn [FuncCall_names].
    rewrite (paramName_in_range _ _ x) by apply index_app_r.
    cbn [mbind result_bind].
    rewrite <- (len_app_cons pre x).
    rewrite (IH (pre ++ [x])) by now rewrite <- List.app_assoc.
    rewrite List.length_app, Nat.add_1_r. cbn [length].
    rewrite indices_cons. cbn [map].
    rewrite <- List.app_assoc. reflexivity.
Qed.

Lemma FuncCall_names_all (params : ParamSet) :
  FuncCall_names params 0 params [] = Ok (paramNames params).
Proof. exact (FuncCall_names_spec params [] params [] eq_refl). Qed.

Lemma removelast_map {A B : Type} (h : A -> B) (l : list A) :
  removelast (map h l) = map h (removelast l).
Proof.
  induction l as [|x l IH]; [reflexivity|].
  destruct l as [|y l]; [reflexivity|].
  cbn [map removelast] in *. now rewrite <- IH.
Qed.

Lemma removelast_indices (a n : nat) :
  removelast (indices a n) = indices a (n - 1).
Proof.
  unfold indices. rewrite removelast_map. f_equal.
  destruct n as [|n]; [reflexivity|].
  rewrite seq_S, removelast_last. f_equal. lia.
Qed.

Lemma FuncCallGRPCAdapter_names_spec (params pre rest : ParamSet)
    (acc : list string) :
  params = pre ++ rest ->
  FuncCallGRPCAdapter_names params (len_ pre) rest acc
  = Ok (acc ++ map (nameAt params) (indices (length pre) (length rest - 1))).
Proof.
  revert pre acc. induction rest as [|x rest IH]; intros pre acc ->.
  - simpl. now rewrite List.app_nil_r.
  - cbn [FuncCallGRPCAdapter_names].
    destruct rest as [|y rest].
    + replace (len_ pre =? len_ (pre ++ [x]) - 1) with true
        by (symmetry; apply Z.eqb_eq; rewrite len_app_cons; lia).
      simpl. now rewrite List.app_nil_r.
    + replace (len_ pre =? len_ (pre ++ x :: y :: rest) - 1) with false
        by (symmetry; apply Z.eqb_neq; unfold len_;
            rewrite List.length_app; simpl; lia).
      rewrite (paramName_in_range _ _ x) by apply index_app_r.
      cbn [mbind result_bind].
      rewrite <- (len_app_cons pre x).
      rewrite (IH (pre ++ [x])) by now rewrite <- List.app_assoc.
      rewrite List.length_app, Nat.add_1_r.
      replace (length (x :: y :: rest) - 1)%nat
        with (S (length (y :: rest) - 1)) by (simpl; lia).
      rewrite indices_cons. cbn [map].
      rewrite <- List.app_assoc. reflexivity.
Qed.

Lemma index_in_range {A : Type} (l : list A) (i : Z) (x : A) :
  index l i = Some x -> 0 <= i < len_ l.
Proof.
  unfold index, len_. destruct (Z.ltb_spec i 0) as [|Hi]; [discriminate|].
  intros Hl%lookup_lt_Some. lia.
Qed.

Lemma index_paramNames (params : ParamSet) (i : Z) (p : Param) :
  index params i = Some p ->
  index (paramNames params) i = Some (nameAt params i).
Proof.
  intros H. pose proof (index_in_range _ _ _ H) as Hr.
  unfold index, paramNames, indices, len_ in *.
  destruct (Z.ltb_spec i 0); [lia|].
  rewrite !list_lookup_fmap.
  rewrite (lookup_seq_lt 0 (length params) (Z.to_nat i)) by lia.
  simpl. f_equal. f_equal. lia.
Qed.

End Naming.

(** C5. The name of a parameter depends on its position only: [ctx] at
    index 0 when the type there is [context.Context], [req] at index 1 of
    a list of exactly two, [param<index>] otherwise.  So the parameters
    [context, *Request] are named [ctx, req], [context] alone [ctx], and
    [context, A, B] are named [ctx, param1, param2]. *)
Theorem paramName_by_position :
  (forall (paramSet : ParamSet) (i : Z) (p : Param),
     index paramSet i = Some p ->
     paramName i paramSet
     = Ok (if decide (i = 0 /\ Type' p = "context.Context") then "ctx"
           else if decide (len_ paramSet = 2 /\ i = 1) then "req"
           else "param" +:+ itoa i)) /\
  (forall c r : Param,
     Type' c = "context.Context" ->
     FuncCall_names [c; r] 0 [c; r] [] = Ok ["ctx"; "req"]) /\
  (forall c : Param,
     Type' c = "context.Context" ->
     FuncCall_names [c] 0 [c] [] = Ok ["ctx"]) /\
  (forall c a b : Param,
     Type' c = "context.Context" ->
     FuncCall_names [c; a; b] 0 [c; a; b] [] = Ok ["ctx"; "param1"; "param2"]).
Proof.
  split; [|split; [|split]].
  - intros paramSet i p H. unfold paramName. rewrite H.
    destruct (String.eqb_spec (Type' p) "context.Context") as [Ht|Ht];
      destruct (Z.eqb_spec i 0) as [Hi|Hi];
      destruct (Z.eqb_spec (len_ paramSet) 2) as [Hl|Hl];
      destruct (Z.eqb_spec i 1) as [Hj|Hj];
      cbn [andb]; repeat case_decide; try reflexivity;
      exfalso; intuition (congruence || lia).
  - intros c r Hc. simpl. unfold paramName. simpl.
    rewrite Hc, ?andb_false_r. reflexivity.
  - intros c Hc. simpl. unfold paramName. simpl.
    rewrite Hc, ?andb_false_r. reflexivity.
  - intros c a b Hc. simpl. unfold paramName. simpl.
    rewrite Hc, ?andb_false_r. reflexivity.
Qed.

(** The rule at the parameters of [Get]: a context, a request and the
    variadic options. *)
Lemma paramName_by_position_witness :
  index (paramsOf true (Params sigGet)) 2
  = Some (mkParam "opts" "[]string" (Slice (Basic "string")) true) /\
  paramName 2 (paramsOf true (Params sigGet)) = Ok "param2".
Proof.
  split; [reflexivity|].
  exact (proj1 paramName_by_position (paramsOf true (Params sigGet)) 2
           (mkParam "opts" "[]string" (Slice (Basic "string")) true) eq_refl).
Defined.

(** ** The call of the adapter *)

(** C8. The arguments the RPC adapter forwards are the names of all the
    parameters but the last, in their order; the adapter's template passes
    them to the delegate, and no other template does. *)
Theorem FuncCallGRPCAdapter_drops_last
    (g : generator.Generator) (f : value) (params : ParamSet) :
  generator.FuncParams g f = Ok params ->
  FuncCall_names params 0 params [] = Ok (paramNames params) /\
  length (paramNames params) = length params /\
  (forall i p, index params i = Some p ->
     exists name, paramName i params = Ok name /\
                  index (paramNames params) i = Some name) /\
  FuncCallGRPCAdapter_names params 0 params []
  = Ok (removelast (paramNames params)) /\
  FuncCallGRPCAdapter g f = Ok (Join (removelast (paramNames params)) ", ") /\
  everyCallBetween "(" "callgrpcadapter" ")" grpcadapterTemplate = true /\
  (forall name t,
     In (name, t) Templates ->
     (templateInvokes "callgrpcadapter" t = true <-> name = "grpcadapter") /\
     (templateInvokes "call" t = false <-> name = "grpcadapter")).
Proof.
  intros Hp.
  assert (Hloop : FuncCallGRPCAdapter_names params 0 params []
                  = Ok (removelast (paramNames params))).
  { pose proof (FuncCallGRPCAdapter_names_spec params [] params [] eq_refl)
      as Hs.
    change (len_ (@nil Param)) with 0 in Hs. rewrite Hs.
    unfold paramNames. rewrite removelast_map, removelast_indices.
    reflexivity. }
  split; [apply FuncCall_names_all|]. split.
  { unfold paramNames, indices. now rewrite !length_map, length_seq. }
  split.
  { intros i p H. exists (nameAt params i). split.
    - now apply (paramName_in_range _ _ p).
    - now apply (index_paramNames _ _ p). }
  split; [exact Hloop|]. split.
  { unfold FuncCallGRPCAdapter. rewrite Hp. cbn [orErrorf mbind result_bind].
    now rewrite Hloop. }
  split; [vm_compute; reflexivity|].
  intros name t Hin. simpl in Hin.
  destruct Hin as [H|[H|[H|[H|[]]]]]; inversion H; subst; clear H;
    vm_compute; repeat split; congruence.
Qed.

(** The adapter on [Get(ctx, in, opts...)]: the call options are dropped. *)
Lemma FuncCallGRPCAdapter_drops_last_witness :
  generator.FuncParams (sampleGenerator []) (VSignature sigGet)
  = Ok (paramsOf true (Params sigGet)) /\
  FuncCall (sampleGenerator []) (VSignature sigGet) = Ok "ctx, param1, param2" /\
  FuncCallGRPCAdapter (sampleGenerator []) (VSignature sigGet)
  = Ok "ctx, param1".
Proof.
  split; [reflexivity|]. split; [reflexivity|].
  exact (proj1 (proj2 (proj2 (proj2 (proj2
           (FuncCallGRPCAdapter_drops_last (sampleGenerator [])
              (VSignature sigGet) (paramsOf true (Params sigGet))
              eq_refl)))))).
Defined.

(** ** The bindings of the results *)
Section Results.

Lemma resultArguments_loop_spec (terminal : string)
    (results pre rest : ParamSet) (acc : list string) :
  results = pre ++ rest ->
  resultArguments_loop terminal results (len_ pre) rest acc
  = acc ++ imap (fun i r =>
                   if decide (isTerminalError results (length pre + i) r)
                   then terminal
                   else "arg" +:+ itoa (Z.of_nat (length pre + i))) rest.
Proof.
  revert pre acc. induction rest as [|x rest IH]; intros pre acc ->.
  - simpl. now rewrite List.app_nil_r.
  - cbn [resultArguments_loop].
    rewrite <- (len_app_cons pre x).
    rewrite (IH (pre ++ [x])) by now rewrite <- List.app_assoc.
    rewrite imap_cons, <- List.app_assoc. cbn [app]. f_equal. f_equal.
    + rewrite Nat.add_0_r.
      destruct (String.eqb_spec (Type' x) "error") as [Ht|Ht];
        destruct (Z.eqb_spec (len_ pre) (len_ (pre ++ x :: rest) - 1))
          as [Hl|Hl];
        cbn [andb]; case_decide as Hd; try reflexivity; exfalso;
        unfold isTerminalError, len_ in *; rewrite List.length_app in *;
        cbn [length] in *.
      * apply Hd. split; [assumption|lia].
      * destruct Hd as [_ Hd]. lia.
      * destruct Hd as [Hd _]. contradiction.
      * destruct Hd as [Hd _]. contradiction.
    + apply imap_ext. intros i r _. cbn [compose].
      rewrite List.length_app. cbn [length].
      replace (length pre + 1 + i)%nat with (length pre + S i)%nat by lia.
      reflexivity.
Qed.

Lemma resultArguments_loop_all (terminal : string) (results : ParamSet) :
  resultArguments_loop terminal results 0 results []
  = bindings terminal results.
Proof.
  exact (resultArguments_loop_spec terminal results [] results [] eq_refl).
Qed.

Lemma length_bindings (terminal : string) (results : ParamSet) :
  length (bindings terminal results) = length results.
Proof. unfold bindings. apply length_imap. Qed.

End Results.

(** C9. The assignment is chosen by one test: a result list that is
    exactly the single terminal error reuses the declared [err] with [=];
    every other result list binds fresh names with [:=], [arg<i>] for the
    result at index [i] and [err] for a terminal error. *)
Theorem FuncResults_assignment_style
    (g : generator.Generator) (f : value) (results : ParamSet) :
  generator.FuncResults g f = Ok results ->
  ((exists r, results = [r] /\ Type' r = "error") ->
   FuncResults g f = Ok "err = ") /\
  (~ (exists r, results = [r] /\ Type' r = "error") ->
   FuncResults g f = Ok (Join (bindings "err" results) ", " +:+ " := ")) /\
  (forall r0 r1, results = [r0; r1] -> Type' r1 = "error" ->
   FuncResults g f = Ok "arg0, err := ").
Proof.
  intros Hr.
  assert (Hgen : FuncResults g f
                 = (op ← (if len_ (bindings "err" results) =? 1 then
                            match index results 0 with
                            | None => Abort (GoPanic "index out of range")
                            | Some r0 =>
                                Ok (if String.eqb (Type' r0) "error"
                                    then "=" else ":=")
                            end
                          else Ok ":=");
                    Ok (Join (bindings "err" results) ", " +:+ " " +:+ op
                        +:+ " "))).
  { unfold FuncResults. rewrite Hr. cbn [orErrorf mbind result_bind].
    now rewrite resultArguments_loop_all. }
  assert (Hother : ~ (exists r, results = [r] /\ Type' r = "error") ->
            FuncResults g f
            = Ok (Join (bindings "err" results) ", " +:+ " := ")).
  { intros Hn. rewrite Hgen. unfold len_. rewrite length_bindings.
    destruct results as [|r0 [|r1 rest]]; try reflexivity.
    - change (index [r0] 0) with (Some r0). cbn [length Z.of_nat].
      destruct (String.eqb_spec (Type' r0) "error") as [Ht|Ht];
        [|reflexivity].
      exfalso. apply Hn. now exists r0.
    - replace (Z.of_nat (length (r0 :: r1 :: rest)) =? 1) with false
        by (symmetry; apply Z.eqb_neq; simpl; lia).
      reflexivity. }
  split; [|split].
  - intros [r [-> Ht]]. rewrite Hgen. unfold len_. rewrite length_bindings.
    change (index [r] 0) with (Some r).
    replace (Z.of_nat (length [r]) =? 1) with true by reflexivity.
    destruct (String.eqb_spec (Type' r) "error") as [_|Hn]; [|contradiction].
    unfold bindings. cbn [imap].
    case_decide as Hd; [reflexivity|].
    exfalso. apply Hd. now split.
  - exact Hother.
  - intros r0 r1 -> Ht. rewrite Hother.
    + unfold bindings. cbn [imap compose].
      repeat case_decide; try reflexivity;
        unfold isTerminalError in *; cbn [length] in *;
        exfalso; intuition (congruence || lia).
    + intros [r [Heq _]]. discriminate.
Qed.

(** [Close(ctx) error] reuses [err]; [Do(ctx, req)] with two results
    declares [arg0] and [err]. *)
Lemma FuncResults_assignment_style_witness :
  generator.FuncResults (sampleGenerator []) (VSignature sigClose)
  = Ok (paramsOf false (Results sigClose)) /\
  FuncResults (sampleGenerator []) (VSignature sigClose) = Ok "err = ".
Proof.
  split; [reflexivity|].
  refine (proj1 (FuncResults_assignment_style (sampleGenerator [])
                   (VSignature sigClose) (paramsOf false (Results sigClose))
                   eq_refl) _).
  eexists. split; reflexivity.
Defined.

(** ** The empty values of the error path *)
Section EmptyValues.

Lemma nonTerminal_cons2 (x y : Param) (l : ParamSet) :
  nonTerminal (x :: y :: l) = x :: nonTerminal (y :: l).
Proof.
  unfold nonTerminal. change (last (x :: y :: l)) with (last (y :: l)).
  destruct (last (y :: l)) as [r|]; [|reflexivity].
  destruct (String.eqb (Type' r) "error"); reflexivity.
Qed.

Lemma FuncReturnErr_values_spec (results pre rest : ParamSet)
    (acc : list string) :
  results = pre ++ rest ->
  FuncReturnErr_values results (len_ pre) rest acc
  = (vs ← mapM emptyValue (OriginalType <$> nonTerminal rest);
     Ok (acc ++ vs)).
Proof.
  revert pre acc. induction rest as [|x rest IH]; intros pre acc ->.
  - simpl. now rewrite List.app_nil_r.
  - cbn [FuncReturnErr_values].
    destruct rest as [|y rest].
    + replace (len_ pre =? len_ (pre ++ [x]) - 1) with true
        by (symmetry; apply Z.eqb_eq; rewrite len_app_cons; lia).
      unfold nonTerminal. cbn [last].
      destruct (String.eqb (Type' x) "error"); cbn [andb].
      * simpl. now rewrite List.app_nil_r.
      * cbn. destruct (emptyValue (OriginalType x)); reflexivity.
    + replace (len_ pre =? len_ (pre ++ x :: y :: rest) - 1) with false
        by (symmetry; apply Z.eqb_neq; unfold len_;
            rewrite List.length_app; simpl; lia).
      rewrite andb_false_r, nonTerminal_cons2.
      rewrite <- (len_app_cons pre x).
      cbn [fmap list_fmap mapM].
      destruct (emptyValue (OriginalType x)) as [v|e|a]; try reflexivity.
      cbn [mbind result_bind].
      rewrite (IH (pre ++ [x])) by now rewrite <- List.app_assoc.
      change (list_fmap Param Type_ OriginalType (nonTerminal (y :: rest)))
        with (OriginalType <$> nonTerminal (y :: rest)).
      destruct (mapM emptyValue (OriginalType <$> nonTerminal (y :: rest)))
        as [vs|e|a]; try reflexivity.
      cbn. now rewrite <- List.app_assoc.
Qed.

Lemma FuncReturnErr_spec (g : generator.Generator) (f : value)
    (results : ParamSet) :
  generator.FuncResults g f = Ok results ->
  FuncReturnErr g f
  = (vs ← mapM emptyValue (OriginalType <$> nonTerminal results);
     Ok (match vs with
         | [] => ""
         | _ => Join vs ", " +:+ ","
         end)).
Proof.
  intros Hr. unfold FuncReturnErr. rewrite Hr.
  cbn [orErrorf mbind result_bind].
  pose proof (FuncReturnErr_values_spec results [] results [] eq_refl) as Hs.
  change (len_ (@nil Param)) with 0 in Hs. rewrite Hs.
  destruct (mapM emptyValue (OriginalType <$> nonTerminal results))
    as [vs|e|a]; try reflexivity.
  cbn. now destruct vs.
Qed.

Lemma FuncReturnOK_spec (g : generator.Generator) (f : value)
    (results : ParamSet) :
  generator.FuncResults g f = Ok results ->
  FuncReturnOK g f = Ok (Join (bindings "nil" results) ", ").
Proof.
  intros Hr. unfold FuncReturnOK. rewrite Hr.
  cbn [orErrorf mbind result_bind].
  now rewrite resultArguments_loop_all.
Qed.

(** Where the templates print [returnerr] and [returnok]: always in a
    [return] statement, [returnerr] before the error. *)
Lemma templates_return_statements :
  forallb (fun kt => everyCallBetween "return " "returnerr" " errors." (snd kt)
                     && everyCallBetween "return " "returnok" "" (snd kt))
    Templates = true.
Proof. vm_compute. reflexivity. Qed.

End EmptyValues.

(** C10. When the only result is the terminal error, the error path has
    no empty values: [FuncReturnErr] gives the empty string, and the
    rendered statement returns the wrapped error alone. *)
Theorem FuncReturnErr_error_only
    (g : generator.Generator) (f : value) (r : Param) :
  generator.FuncResults g f = Ok [r] ->
  Type' r = "error" ->
  FuncReturnErr g f = Ok "" /\
  (forall data env,
     lookup_assoc env "$method" = Some f ->
     execList (registeredFuncs g) data env errorReturn
     = Ok "return  errors.WithStack(err)") /\
  forallb (fun kt => everyCallBetween "return " "returnerr" " errors." (snd kt))
    Templates = true.
Proof.
  intros Hr Ht.
  assert (He : FuncReturnErr g f = Ok "").
  { rewrite (FuncReturnErr_spec g f [r] Hr). unfold nonTerminal.
    cbn [last]. now rewrite Ht. }
  split; [exact He|]. split.
  - intros data env Hm. unfold errorReturn.
    rewrite execList_Text. erewrite execList_Call by (exact Hm || reflexivity).
    cbn [fst snd]. rewrite He. reflexivity.
  - vm_compute. reflexivity.
Qed.

(** [Close(ctx) error] on its error path. *)
Lemma FuncReturnErr_error_only_witness :
  generator.FuncResults (sampleGenerator []) (VSignature sigClose)
  = Ok [mkParam "" "error" errorType false] /\
  FuncReturnErr (sampleGenerator []) (VSignature sigClose) = Ok "".
Proof.
  split; [reflexivity|].
  exact (proj1 (FuncReturnErr_error_only (sampleGenerator [])
                  (VSignature sigClose) (mkParam "" "error" errorType false)
                  eq_refl eq_refl)).
Defined.

(** C4. For the results [*Response] and [error], the error path returns
    [nil] and the wrapped error, the success path [arg0] and [nil]. *)
Theorem pointer_then_error_returns
    (g : generator.Generator) (f : value) (r0 r1 : Param) (elem : Type_) :
  generator.FuncResults g f = Ok [r0; r1] ->
  OriginalType r0 = Pointer elem ->
  Type' r1 = "error" ->
  FuncReturnErr g f = Ok "nil," /\
  FuncReturnOK g f = Ok "arg0, nil" /\
  (forall data env,
     lookup_assoc env "$method" = Some f ->
     execList (registeredFuncs g) data env errorReturn
     = Ok "return nil, errors.WithStack(err)" /\
     execList (registeredFuncs g) data env successReturn
     = Ok "return arg0, nil") /\
  forallb (fun kt => everyCallBetween "return " "returnerr" " errors." (snd kt)
                     && everyCallBetween "return " "returnok" "" (snd kt))
    Templates = true.
Proof.
  intros Hr Hp Ht.
  assert (He : FuncReturnErr g f = Ok "nil,").
  { rewrite (FuncReturnErr_spec g f _ Hr). unfold nonTerminal.
    cbn [last]. rewrite Ht. cbn. now rewrite Hp. }
  assert (Ho : FuncReturnOK g f = Ok "arg0, nil").
  { rewrite (FuncReturnOK_spec g f _ Hr). unfold bindings. cbn [imap compose].
    repeat case_decide; try reflexivity;
      unfold isTerminalError in *; cbn [length] in *;
      exfalso; intuition (congruence || lia). }
  split; [exact He|]. split; [exact Ho|]. split.
  - intros data env Hm. split.
    + unfold errorReturn.
      rewrite execList_Text.
      erewrite execList_Call by (exact Hm || reflexivity).
      cbn [fst snd]. rewrite He. reflexivity.
    + unfold successReturn.
      rewrite execList_Text.
      erewrite execList_Call by (exact Hm || reflexivity).
      cbn [fst snd]. rewrite Ho. reflexivity.
  - exact templates_return_statements.
Qed.

(** [Do(ctx, req)] with the results [*Response] and [error]. *)
Lemma pointer_then_error_returns_witness :
  generator.FuncResults (sampleGenerator []) (VSignature sigDo)
  = Ok [mkParam "" "*pkg.Response" responsePtr false;
        mkParam "" "error" errorType false] /\
  FuncReturnErr (sampleGenerator []) (VSignature sigDo) = Ok "nil," /\
  FuncReturnOK (sampleGenerator []) (VSignature sigDo) = Ok "arg0, nil".
Proof.
  split; [reflexivity|].
  pose (H := pointer_then_error_returns (sampleGenerator [])
               (VSignature sigDo)
               (mkParam "" "*pkg.Response" responsePtr false)
               (mkParam "" "error" errorType false)
               (Named "pkg" "Response" (Struct []))
               eq_refl eq_refl eq_refl).
  exact (conj (proj1 H) (proj1 (proj2 H))).
Defined.

(** C3, as the specification states it, fails: a pointer or a slice
    result gets the value [nil] and no error, and the integer type [int]
    is a panic and not [0]. *)
Lemma zero_value_by_family_fails :
  emptyValue responsePtr = Ok "nil" /\
  emptyValue (Slice (Basic "string")) = Ok "nil" /\
  emptyValue (Basic "int")
  = Abort (GoPanic "no nil value for basic type known: int") /\
  FuncReturnErr (sampleGenerator []) (VSignature sigDo) = Ok "nil," /\
  FuncReturnErr (sampleGenerator []) (VSignature sigCount)
  = Abort (GoPanic "no nil value for basic type known: int").
Proof. repeat split; reflexivity. Qed.

(** C3, amended. The empty value of a result is [0] for [int64], [false]
    for [bool] and the empty string literal for [string]; a defined type
    over one of these gets the same literal; every other basic type and
    every defined type over anything else is a panic; a pointer, slice,
    map, interface or function type gets [nil].  [FuncReturnErr] derives
    it for every result but the terminal error. *)
Theorem emptyValue_by_classification :
  emptyValue (Basic "int64") = Ok "0" /\
  emptyValue (Basic "bool") = Ok "false" /\
  emptyValue (Basic "string") = Ok emptyStringLit /\
  (forall path name d b,
     Underlying d = Basic b -> In b knownBasic ->
     emptyValue (Named path name d) = emptyValue (Basic b)) /\
  (forall n,
     ~ In n knownBasic ->
     emptyValue (Basic n)
     = Abort (GoPanic ("no nil value for basic type known: " +:+ n))) /\
  (forall path name d,
     ~ In (TypeString (Underlying d)) knownBasic ->
     emptyValue (Named path name d)
     = Abort (GoPanic ("no nil value for named type known: " +:+
                       TypeString (Named path name d) +:+ ", " +:+
                       TypeString (Underlying d)))) /\
  (forall t, nilable t -> emptyValue t = Ok "nil") /\
  (forall g f results,
     generator.FuncResults g f = Ok results ->
     FuncReturnErr g f
     = (vs ← mapM emptyValue (OriginalType <$> nonTerminal results);
        Ok (match vs with
            | [] => ""
            | _ => Join vs ", " +:+ ","
            end))).
Proof.
  assert (Hnot : forall s, ~ In s knownBasic ->
            String.eqb s "int64" = false /\ String.eqb s "string" = false /\
            String.eqb s "bool" = false).
  { intros s Hs. unfold knownBasic in Hs. cbn [In] in Hs.
    repeat split; apply String.eqb_neq; intros ->; apply Hs; auto. }
  repeat split; try reflexivity.
  - intros path name d b Hu Hb. unfold emptyValue. cbn [Underlying].
    rewrite Hu. cbn [TypeString].
    unfold knownBasic in Hb. cbn [In] in Hb.
    destruct Hb as [<-|[<-|[<-|[]]]]; reflexivity.
  - intros n Hn. destruct (Hnot n Hn) as (H1 & H2 & H3).
    unfold emptyValue. now rewrite H1, H2, H3.
  - intros path name d Hn. destruct (Hnot _ Hn) as (H1 & H2 & H3).
    unfold emptyValue. cbn [Underlying]. now rewrite H1, H2, H3.
  - intros t Ht. destruct t; try reflexivity; contradiction.
  - intros g f results. apply FuncReturnErr_spec.
Qed.

(** A defined type over [int64] and one over a struct. *)
Lemma emptyValue_by_classification_witness :
  emptyValue (Named "pkg" "ID" (Basic "int64")) = Ok "0" /\
  emptyValue (Named "pkg" "Response" (Struct []))
  = Abort (GoPanic
      "no nil value for named type known: pkg.Response, struct{}").
Proof.
  split.
  - refine (proj1 (proj2 (proj2 (proj2 emptyValue_by_classification)))
              "pkg" "ID" (Basic "int64") "int64" eq_refl _).
    simpl. auto.
  - refine (proj1 (proj2 (proj2 (proj2 (proj2 (proj2
              emptyValue_by_classification)))))
              "pkg" "Response" (Struct []) _).
    simpl. intros [H|[H|[H|[]]]]; discriminate H.
Defined.

(** ** Variadic parameters *)
Section VariadicFacts.

Lemma index_fmap {A B : Type} (h : A -> B) (l : list A) (i : Z) :
  index (h <$> l) i = h <$> index l i.
Proof. unfold index. destruct (i <? 0); [reflexivity|]. apply list_lookup_fmap. Qed.

Lemma nameAt_clearVariadic (params : ParamSet) (i : Z) :
  nameAt (clearVariadic <$> params) i = nameAt params i.
Proof.
  unfold nameAt, paramName. rewrite index_fmap.
  unfold len_. rewrite length_fmap.
  destruct (index params i) as [p|]; reflexivity.
Qed.

Lemma paramNames_clearVariadic (params : ParamSet) :
  paramNames (clearVariadic <$> params) = paramNames params.
Proof.
  unfold paramNames. rewrite length_fmap.
  apply map_ext. intros i. apply nameAt_clearVariadic.
Qed.

End VariadicFacts.

(** C6. On [Get(ctx, in, opts ...string)] the signature is rendered with
    the variadic form [...string] and the positional name [param2], but
    the delegated call passes [param2] bare: the arguments of the call are
    the names of the parameters whatever their variadic marks are. *)
Theorem variadic_call_not_expanded :
  FuncSignature (sampleGenerator []) (VSignature sigGet)
  = Ok "(ctx context.Context, param1 *pkg.Request, param2 ...string) (*pkg.Response, error)" /\
  FuncCall (sampleGenerator []) (VSignature sigGet) = Ok "ctx, param1, param2" /\
  execList (registeredFuncs (sampleGenerator [])) []
    [("$methodName", VString "Get"); ("$method", VSignature sigGet)]
    delegateCall
  = Ok " t.next.Get(ctx, param1, param2)" /\
  forallb (fun kt => String.eqb (fst kt) "grpcadapter"
                     || everyCallBetween "(" "call" ")" (snd kt))
    Templates = true /\
  (forall g f params,
     generator.FuncParams g f = Ok params ->
     FuncCall g f = Ok (Join (paramNames params) ", ")) /\
  (forall params : ParamSet,
     paramNames (clearVariadic <$> params) = paramNames params).
Proof.
  split; [reflexivity|]. split; [reflexivity|]. split; [reflexivity|].
  split; [vm_compute; reflexivity|]. split.
  - intros g f params Hp. unfold FuncCall. rewrite Hp.
    cbn [orErrorf mbind result_bind].
    now rewrite FuncCall_names_all.
  - exact paramNames_clearVariadic.
Qed.

(** ** The walk over the source package *)
Section WalkFacts.

Context {W : Type}.
Implicit Types (v : visitor W) (w : W).

Lemma Walk_eq v node w :
  Walk v node w
  = match Visit v node w with
    | (Ok v1, w1) => walkFiles v1 (children node) w1
    | r => r
    end.
Proof. destruct node; reflexivity. Qed.

Lemma visitSpecs_app v (a b : list (string * Expr)) w :
  visitSpecs v (a ++ b) w
  = match visitSpecs v a w with
    | (Ok v', w') => visitSpecs v' b w'
    | r => r
    end.
Proof.
  revert v w. induction a as [|[name typ] a IH]; intros v w; [reflexivity|].
  cbn [app visitSpecs].
  destruct (Visit v (TypeSpec name typ []) w) as [[v'|e|ab] w'];
    [apply IH|reflexivity|reflexivity].
Qed.

Lemma walkFiles_below (files : list Node) :
  Forall (fun n => forall v w, Walk v n w = visitSpecs v (typeSpecs n) w)
    files ->
  forall v w, walkFiles v files w = visitSpecs v (flat_map typeSpecs files) w.
Proof.
  induction 1 as [|n files Hn _ IH]; intros v w; [reflexivity|].
  cbn [walkFiles flat_map]. rewrite visitSpecs_app, Hn.
  destruct (visitSpecs v (typeSpecs n) w) as [[v'|e|ab] w'];
    [apply IH|reflexivity|reflexivity].
Qed.

Lemma Walk_typeSpecs (node : Node) :
  forall v w, Walk v node w = visitSpecs v (typeSpecs node) w.
Proof.
  induction node as [name typ cs IH|cs IH] using Node_ind_below;
    intros v w; rewrite Walk_eq.
  - cbn [typeSpecs visitSpecs children].
    change (Visit v (TypeSpec name typ cs) w)
      with (Visit v (TypeSpec name typ []) w).
    destruct (Visit v (TypeSpec name typ []) w) as [[v'|e|ab] w'];
      [now apply walkFiles_below|reflexivity|reflexivity].
  - cbn [typeSpecs Visit children]. now apply walkFiles_below.
Qed.

Lemma walkFiles_typeSpecs (files : list Node) v w :
  walkFiles v files w = visitSpecs v (flat_map typeSpecs files) w.
Proof.
  apply walkFiles_below. apply Forall_forall. intros n _.
  apply Walk_typeSpecs.
Qed.

(** A declaration that is not the interface looked for leaves the visitor
    as it is. *)
Lemma Visit_skip v (spec : string * Expr) cs w :
  resolves (gen v) spec ->
  ~ declaresInterface (gen v) (sname v) spec ->
  Visit v (TypeSpec (fst spec) (snd spec) cs) w = (Ok v, w).
Proof.
  intros [t Ht] Hn. unfold Visit. rewrite Ht.
  destruct t; try reflexivity.
  destruct (String.eqb_spec (fst spec) (sname v)) as [Heq|Hne];
    [|reflexivity].
  exfalso. apply Hn. split; [exact Heq|]. eexists. exact Ht.
Qed.

Lemma visitSpecs_skip v (specs : list (string * Expr)) w :
  Forall (fun spec => resolves (gen v) spec /\
                      ~ declaresInterface (gen v) (sname v) spec) specs ->
  visitSpecs v specs w = (Ok v, w).
Proof.
  induction 1 as [|[name typ] specs [Hr Hn] _ IH]; [reflexivity|].
  cbn [visitSpecs].
  pose proof (Visit_skip v (name, typ) [] w Hr Hn) as Hs.
  cbn [fst snd] in Hs. rewrite Hs. exact IH.
Qed.

(** Once an error is stored, the declarations that follow change
    nothing. *)
Lemma visitSpecs_after_error v (specs : list (string * Expr)) w e :
  err v = Some e ->
  Forall (resolves (gen v)) specs ->
  visitSpecs v specs w = (Ok v, w).
Proof.
  intros He. induction 1 as [|[name typ] specs [t Ht] _ IH]; [reflexivity|].
  cbn [visitSpecs]. unfold Visit. cbn [snd] in Ht. rewrite Ht.
  destruct t; try exact IH.
  destruct (negb _); [exact IH|]. rewrite He. exact IH.
Qed.

Lemma Visit_interface v (name : string) (typ : Expr) (t : list Func) cs w :
  name = sname v ->
  generator.ExpressionType (gen v) typ = Ok (Interface t) ->
  err v = None ->
  Visit v (TypeSpec name typ cs) w
  = let '(e, mths, w') :=
      processInterface_loop (validators v) t (methods v) w in
    (Ok (mkVisitor (gen v) mths (sname v) (validators v) e), w').
Proof.
  intros -> Ht He. unfold Visit, processInterface. rewrite Ht, He.
  rewrite String.eqb_refl. cbn [negb].
  destruct (processInterface_loop (validators v) t (methods v) w)
    as [[e mths] w'].
  reflexivity.
Qed.

(** The validators and the methods, in their order. *)
Lemma runValidators_app (vs1 vs2 : list (validatorFunc W))
    (signature : Signature) w :
  runValidators (vs1 ++ vs2) signature w
  = match runValidators vs1 signature w with
    | (None, w') => runValidators vs2 signature w'
    | r => r
    end.
Proof.
  revert w. induction vs1 as [|f vs1 IH]; intros w; [reflexivity|].
  cbn [app runValidators].
  destruct (f signature w) as [[e|] w']; [reflexivity|apply IH].
Qed.

Lemma processInterface_loop_app (vs : list (validatorFunc W))
    (pre post : list Func) (mths : gmap string Signature) w :
  processInterface_loop vs (pre ++ post) mths w
  = match processInterface_loop vs pre mths w with
    | (None, mths1, w1) => processInterface_loop vs post mths1 w1
    | r => r
    end.
Proof.
  revert mths w. induction pre as [|m pre IH]; intros mths w; [reflexivity|].
  cbn [app processInterface_loop].
  destruct (runValidators vs (FuncType m) w) as [[e|] w'];
    [reflexivity|apply IH].
Qed.

Lemma processInterface_loop_pass (vs : list (validatorFunc W))
    (t : list Func) (mths mths1 : gmap string Signature) w w1 :
  processInterface_loop vs t mths w = (None, mths1, w1) ->
  mths1 = collect t mths.
Proof.
  revert mths w. induction t as [|m t IH]; intros mths w H.
  - cbn in H. now inversion H.
  - cbn [processInterface_loop] in H.
    destruct (runValidators vs (FuncType m) w) as [[e|] w'];
      [discriminate|].
    cbn [collect foldl]. exact (IH _ _ H).
Qed.

End WalkFacts.

(** ** [Generate] *)
Section GenerateFacts.

Context {W Program : Type} (tc : Toolchain W Program).

Lemma Generate_walk (g : Generator W) (template : Template)
    (sourcePackage interfaceName outputFile outputStruct : string) (w : W)
    (sourcePath destPath : string) (program : Program) :
  PackageOf tc sourcePackage = Ok sourcePath ->
  PackageOf tc (Dir tc outputFile) = Ok destPath ->
  createProgram tc g sourcePath destPath = Ok program ->
  Generate tc g template sourcePackage interfaceName outputFile outputStruct w
  = match visitSpecs
            (mkVisitor (New tc program) ∅ interfaceName (validators_ g) None)
            (flat_map typeSpecs (PackageFiles tc program sourcePath)) w with
    | (Err e, w1) => (Err e, w1)
    | (Abort a, w1) => (Abort a, w1)
    | (Ok v, w1) =>
        match err v with
        | Some e => (Err (Wrap e "failed to parse interface"), w1)
        | None =>
            processAndWrite tc
              (configure (New tc program) sourcePath destPath interfaceName
                 outputStruct)
              template (methods v) outputFile w1
        end
    end.
Proof.
  intros Hs Hd Hp. unfold Generate. rewrite Hs. cbn [wrap mbind result_bind].
  rewrite Hd. cbn [wrap mbind result_bind]. rewrite Hp.
  cbn [wrap mbind result_bind]. now rewrite walkFiles_typeSpecs.
Qed.

End GenerateFacts.




(** C2, as the specification states it, fails: in the interface
    [Service] the method [Bad] fails the validator, and [Close], which
    comes after it, is never validated; the validator was called once. *)
Lemma later_methods_are_not_validated :
  fst (fst (processInterface_loop [recordingFn] serviceMethods ∅ []))
  = Some (Wrap (Errorf "first param must be context.Context")
            "failed to validate method 'Bad'") /\
  snd (processInterface_loop [recordingFn] serviceMethods ∅ [])
  = ["validate (id string) error"] /\
  Generate (sampleToolchain samplePackage sampleTypes)
    (NewGenerator mutexTemplate [recordingFn]) mutexTemplate
    "." "Service" "out.go" "ServiceMutex" []
  = (Err (Wrap (Wrap (Errorf "first param must be context.Context")
                  "failed to validate method 'Bad'")
            "failed to parse interface"),
     ["validate (id string) error"]).
Proof. repeat split; vm_compute; reflexivity. Qed.

(** C2, amended. Validation fails fast.  The validators run in their
    order on the methods in their order, and the first failure ends it:
    no later validator and no later method is tried.  [Generate] then
    returns the error of that validator, wrapped with the name of the
    method, whatever the template is, and neither processes the template
    nor writes the file.  The validator of the command fails on every
    signature whose first parameter is not [context.Context]. *)
Theorem validation_fails_fast
    {W Program : Type} (tc : Toolchain W Program) (g : Generator W)
    (template : Template)
    (sourcePackage interfaceName outputFile outputStruct : string) (w : W)
    (sourcePath destPath : string) (program : Program)
    (before after : list (string * Expr)) (typ : Expr)
    (pre post : list Func) (m : Func)
    (mths1 : gmap string Signature) (w1 w2 : W) (e : error) :
  PackageOf tc sourcePackage = Ok sourcePath ->
  PackageOf tc (Dir tc outputFile) = Ok destPath ->
  createProgram tc g sourcePath destPath = Ok program ->
  let gn := New tc program in
  flat_map typeSpecs (PackageFiles tc program sourcePath)
  = before ++ (interfaceName, typ) :: after ->
  Forall (fun spec => resolves gn spec /\
                      ~ declaresInterface gn interfaceName spec) before ->
  Forall (resolves gn) after ->
  generator.ExpressionType gn typ = Ok (Interface (pre ++ m :: post)) ->
  processInterface_loop (validators_ g) pre ∅ w = (None, mths1, w1) ->
  runValidators (validators_ g) (FuncType m) w1 = (Some e, w2) ->
  let failure :=
    Wrap e ("failed to validate method '" +:+ FuncName m +:+ "'") in
  processInterface_loop (validators_ g) (pre ++ m :: post) ∅ w
  = (Some failure, mths1, w2) /\
  Generate tc g template sourcePackage interfaceName outputFile outputStruct w
  = (Err (Wrap failure "failed to parse interface"), w2) /\
  (forall (vs1 vs2 : list (validatorFunc W)) (f : validatorFunc W)
          (signature : Signature) (wa wb wc : W) (e' : error),
     runValidators vs1 signature wa = (None, wb) ->
     f signature wb = (Some e', wc) ->
     runValidators (vs1 ++ f :: vs2) signature wa = (Some e', wc)) /\
  (forall (signature : Signature) (w' : W),
     match Params signature with
     | [] => True
     | p0 :: _ => TypeString (VarType p0) <> "context.Context"
     end ->
     fn signature w'
     = (Some (Errorf "first param must be context.Context"), w')).
Proof.
  intros Hs Hd Hp gn Hsp Hb Ha Ht Hpre Hm failure.
  assert (Hloop : processInterface_loop (validators_ g) (pre ++ m :: post) ∅ w
                  = (Some failure, mths1, w2)).
  { rewrite processInterface_loop_app, Hpre. cbn [processInterface_loop].
    now rewrite Hm. }
  split; [exact Hloop|]. split; [|split].
  - rewrite (Generate_walk tc _ _ _ _ _ _ _ _ _ _ Hs Hd Hp).
    fold gn. rewrite Hsp, visitSpecs_app.
    rewrite visitSpecs_skip by exact Hb.
    cbn [visitSpecs].
    rewrite (Visit_interface
               (mkVisitor gn ∅ interfaceName (validators_ g) None)
               interfaceName typ _ [] w eq_refl Ht eq_refl).
    cbn [validators methods gen sname]. rewrite Hloop.
    rewrite (visitSpecs_after_error
               (mkVisitor gn mths1 interfaceName (validators_ g)
                  (Some failure))
               after w2 failure eq_refl Ha).
    reflexivity.
  - intros vs1 vs2 f signature wa wb wc e' H1 H2.
    rewrite runValidators_app, H1. cbn [runValidators]. now rewrite H2.
  - intros signature w' Hp0. unfold fn.
    destruct (Params signature) as [|p0 ps]; [reflexivity|].
    apply String.eqb_neq in Hp0. now rewrite Hp0.
Qed.

(** [Generate] asked for [Service] in the sample package: [Bad] fails. *)
Lemma validation_fails_fast_witness :
  Generate (sampleToolchain samplePackage sampleTypes)
    (NewGenerator mutexTemplate [recordingFn]) traceTemplate
    "." "Service" "out.go" "ServiceTracer" []
  = (Err (Wrap (Wrap (Errorf "first param must be context.Context")
                  "failed to validate method 'Bad'")
            "failed to parse interface"),
     ["validate (id string) error"]).
Proof.
  refine (proj1 (proj2 (validation_fails_fast
            (sampleToolchain samplePackage sampleTypes)
            (NewGenerator mutexTemplate [recordingFn]) traceTemplate
            "." "Service" "out.go" "ServiceTracer" [] "." "." samplePackage
            [] [("Config", ExprAt 2)] (ExprAt 1)
            [] [mkFunc "Close" sigClose] (mkFunc "Bad" sigBad)
            ∅ [] ["validate (id string) error"]
            (Errorf "first param must be context.Context")
            eq_refl eq_refl eq_refl eq_refl _ _ eq_refl eq_refl eq_refl))).
  - constructor.
  - repeat constructor. eexists. reflexivity.
Defined.

(** * Further properties *)

(** ** Names never clash *)
Section NameFacts.

Lemma itoa_inj (a b : Z) : itoa a = itoa b -> a = b.
Proof.
  unfold itoa. intros H.
  assert (Hn : forall z, Z.to_int z <> Decimal.Pos Decimal.Nil /\
                         Z.to_int z <> Decimal.Neg Decimal.Nil).
  { intros [|p|p]; split; cbn; try discriminate;
      intros Hp; injection Hp as Hp;
      exact (DecimalPos.Unsigned.to_uint_nonnil _ Hp). }
  apply (f_equal NilZero.int_of_string) in H.
  rewrite !NilZero.isi in H by apply Hn.
  injection H as H. now apply DecimalZ.to_int_inj.
Qed.

Lemma nameAt_cases (params : ParamSet) (i : Z) (p : Param) :
  index params i = Some p ->
  (nameAt params i = "ctx" /\ i = 0) \/
  (nameAt params i = "req" /\ i = 1) \/
  nameAt params i = "param" +:+ itoa i.
Proof.
  intros H. unfold nameAt, paramName. rewrite H.
  destruct (String.eqb (Type' p) "context.Context");
    destruct (Z.eqb_spec i 0); cbn [andb]; auto;
    destruct (len_ params =? 2); destruct (Z.eqb_spec i 1); cbn [andb]; auto.
Qed.

Lemma index_indices (params : ParamSet) (i : Z) :
  In i (indices 0 (length params)) -> exists p, index params i = Some p.
Proof.
  unfold indices. intros Hin. apply in_map_iff in Hin as [k [<- Hk]].
  apply in_seq in Hk. unfold index.
  destruct (Z.ltb_spec (Z.of_nat k) 0); [lia|].
  rewrite Nat2Z.id. apply lookup_lt_is_Some. lia.
Qed.

Lemma string_app_inv_head (p a b : string) : p +:+ a = p +:+ b -> a = b.
Proof.
  induction p as [|c p IH]; [trivial|].
  rewrite !string_app_cons. intros H. injection H as H. exact (IH H).
Qed.

End NameFacts.

(** X1. The names given to the parameters of a method are pairwise
    distinct; each is [ctx], [req] or [param<i>]; and none of them is a
    name bound to a result ([err], [nil] or [arg<j>]). *)
Theorem paramNames_distinct (params results : ParamSet) (terminal : string) :
  terminal = "err" \/ terminal = "nil" ->
  NoDup (paramNames params) /\
  (forall n, In n (paramNames params) ->
     n = "ctx" \/ n = "req" \/ exists i, 0 <= i /\ n = "param" +:+ itoa i) /\
  (forall n b, In n (paramNames params) ->
     In b (bindings terminal results) -> n <> b).
Proof.
  intros Hterm.
  assert (Hshape : forall n, In n (paramNames params) ->
            exists i p, index params i = Some p /\ n = nameAt params i).
  { intros n Hn. unfold paramNames in Hn.
    apply in_map_iff in Hn as [i [<- Hi]].
    destruct (index_indices _ _ Hi) as [p Hp]. now exists i, p. }
  split; [|split].
  - unfold paramNames. apply NoDup_fmap_2_strong.
    + intros i j Hi Hj Heq.
      apply list_elem_of_In in Hi, Hj.
      destruct (index_indices _ _ Hi) as [p Hp].
      destruct (index_indices _ _ Hj) as [q Hq].
      destruct (nameAt_cases _ _ _ Hp) as [[Ha ->]|[[Ha ->]|Ha]];
        destruct (nameAt_cases _ _ _ Hq) as [[Hb ->]|[[Hb ->]|Hb]];
        try reflexivity; rewrite Ha, Hb in Heq; try discriminate Heq.
      apply itoa_inj. exact (string_app_inv_head _ _ _ Heq).
    + unfold indices. apply NoDup_fmap_2; [intros a b; lia|].
      apply NoDup_ListNoDup, seq_NoDup.
  - intros n Hn. destruct (Hshape n Hn) as (i & p & Hp & ->).
    destruct (nameAt_cases _ _ _ Hp) as [[Ha _]|[[Ha _]|Ha]]; auto.
    right. right. exists i. split; [|exact Ha].
    apply index_in_range in Hp. lia.
  - intros n b Hn Hb. destruct (Hshape n Hn) as (i & p & Hp & ->).
    unfold bindings in Hb. apply list_elem_of_In in Hb.
    apply elem_of_lookup_imap in Hb as (k & r & -> & _).
    destruct (nameAt_cases _ _ _ Hp) as [[Ha _]|[[Ha _]|Ha]]; rewrite Ha;
      case_decide; destruct Hterm as [-> | ->]; discriminate.
Qed.

(** The names of the parameters of [Get] and the bindings of its
    results. *)
Lemma paramNames_distinct_witness :
  NoDup (paramNames (paramsOf true (Params sigGet))) /\
  paramNames (paramsOf true (Params sigGet)) = ["ctx"; "param1"; "param2"].
Proof.
  split; [|reflexivity].
  exact (proj1 (paramNames_distinct (paramsOf true (Params sigGet))
                  (paramsOf false (Results sigGet)) "err" (or_introl eq_refl))).
Defined.

(** ** The signature of the generated method *)
Section SignatureFacts.

Lemma TrimPrefix_slice (T : string) : TrimPrefix ("[]" +:+ T) "[]" = T.
Proof.
  unfold TrimPrefix, HasPrefix.
  change ("[]" +:+ T) with (String "[" (String "]" T)).
  cbn [String.prefix String.length]. 
  destruct (ascii_dec "[" "[") as [_|Hn]; [|now contradiction Hn].
  destruct (ascii_dec "]" "]") as [_|Hn]; [|now contradiction Hn].
  cbn [Nat.sub substring].
  replace (String.prefix "" T) with true by (now destruct T).
  replace (String.length T - 0)%nat with (String.length T) by lia.
  apply substring_all.
Qed.

Lemma FuncSignature_names_spec (params pre rest : ParamSet)
    (acc : list string) :
  params = pre ++ rest ->
  FuncSignature_names params (len_ pre) rest acc
  = Ok (acc ++ zip_with (fun i p => nameAt params i +:+ " " +:+ signatureType p)
                 (indices (length pre) (length rest)) rest).
Proof.
  revert pre acc. induction rest as [|x rest IH]; intros pre acc ->.
  - simpl. now rewrite List.app_nil_r.
  - cbn [FuncSignature_names].
    rewrite (paramName_in_range _ _ x) by apply index_app_r.
    cbn [mbind result_bind].
    rewrite <- (len_app_cons pre x).
    fold (signatureType x).
    rewrite (IH (pre ++ [x])) by now rewrite <- List.app_assoc.
    rewrite List.length_app, Nat.add_1_r. cbn [length].
    rewrite indices_cons. cbn [zip_with].
    rewrite <- List.app_assoc. reflexivity.
Qed.

Lemma zip_with_indices (params : ParamSet) (h : string -> Param -> string) :
  zip_with (fun i p => h (nameAt params i) p)
    (indices 0 (length params)) params
  = zip_with h (paramNames params) params.
Proof.
  unfold paramNames. generalize (indices 0 (length params)) as l.
  intros l. revert l. generalize params at 2 4 as ps.
  induction ps as [|p ps IH]; intros [|i l]; cbn; try reflexivity.
  now rewrite IH.
Qed.

End SignatureFacts.

(** X2. The signature of the generated method lists, in order, every
    parameter under the name the delegated call uses for it, followed by
    its type, and then the types of the results.  A variadic parameter of
    type [[]T] is printed as [...T]; a parameter that is not variadic
    keeps its type. *)
Theorem FuncSignature_shape
    (g : generator.Generator) (f : value) (params results : ParamSet) :
  generator.FuncParams g f = Ok params ->
  generator.FuncResults g f = Ok results ->
  FuncSignature g f
  = Ok ("(" +:+
        Join (zip_with (fun name p => name +:+ " " +:+ signatureType p)
                (paramNames params) params) ", " +:+
        ") (" +:+ Join (Type' <$> results) ", " +:+ ")") /\
  FuncCall g f = Ok (Join (paramNames params) ", ") /\
  (forall p T, Variadic p = true -> Type' p = "[]" +:+ T ->
     signatureType p = "..." +:+ T) /\
  (forall p, Variadic p = false -> HasSuffix (Name p) "..." = false ->
     signatureType p = Type' p).
Proof.
  intros Hp Hr. split; [|split; [|split]].
  - unfold FuncSignature. rewrite Hp, Hr.
    cbn [orErrorf mbind result_bind].
    pose proof (FuncSignature_names_spec params [] params [] eq_refl) as Hs.
    change (len_ (@nil Param)) with 0 in Hs. rewrite Hs.
    cbn [app length]. 
    rewrite (zip_with_indices params
               (fun name p => name +:+ " " +:+ signatureType p)).
    do 4 f_equal. 
    assert (Hfold : forall (l : ParamSet) (acc : list string),
              fold_left (fun returns result_ => returns ++ [Type' result_])
                l acc = acc ++ (Type' <$> l)).
    { induction l as [|r l IH]; intros acc; cbn.
      - now rewrite List.app_nil_r.
      - rewrite IH, <- List.app_assoc. reflexivity. }
    now rewrite Hfold.
  - unfold FuncCall. rewrite Hp. cbn [orErrorf mbind result_bind].
    now rewrite FuncCall_names_all.
  - intros p T Hv Ht. unfold signatureType, Pass.
    now rewrite Hv, HasSuffix_app, Ht, TrimPrefix_slice.
  - intros p Hv Hn. unfold signatureType, Pass. now rewrite Hv, Hn.
Qed.

(** The signature of [Get(ctx, in, opts ...string)]. *)
Lemma FuncSignature_shape_witness :
  generator.FuncParams (sampleGenerator []) (VSignature sigGet)
  = Ok (paramsOf true (Params sigGet)) /\
  FuncSignature (sampleGenerator []) (VSignature sigGet)
  = Ok "(ctx context.Context, param1 *pkg.Request, param2 ...string) (*pkg.Response, error)".
Proof.
  split; [reflexivity|].
  exact (proj1 (FuncSignature_shape (sampleGenerator []) (VSignature sigGet)
                  (paramsOf true (Params sigGet))
                  (paramsOf false (Results sigGet)) eq_refl eq_refl)).
Defined.

(** ** What is returned matches what was bound *)
Section ReturnFacts.

Lemma mapM_length {A B : Type} (h : A -> result B) (l : list A)
    (vs : list B) :
  mapM h l = Ok vs -> length vs = length l.
Proof.
  revert vs. induction l as [|x l IH]; intros vs H; cbn in H.
  - now inversion H.
  - destruct (h x) as [y|e|a]; cbn in H; try discriminate.
    destruct (mapM h l) as [ys|e|a]; cbn in H; try discriminate.
    inversion H. cbn. f_equal. now apply IH.
Qed.

Lemma length_nonTerminal (results : ParamSet) (r : Param) :
  last results = Some r -> Type' r = "error" ->
  S (length (nonTerminal results)) = length results.
Proof.
  intros Hl Ht. unfold nonTerminal. rewrite Hl, Ht. cbn.
  destruct results as [|x results] using rev_ind; [discriminate|].
  rewrite removelast_last, List.length_app. cbn. lia.
Qed.

End ReturnFacts.

(** X3. The success path returns, in order, exactly the names the
    assignment bound, with [nil] in the place of [err]; there are as many
    as the method has results.  When the last result is an [error] and the
    empty values can be derived, the error path returns one value less,
    the error taking the last place. *)
Theorem returns_match_results
    (g : generator.Generator) (f : value) (results : ParamSet) :
  generator.FuncResults g f = Ok results ->
  (exists op, FuncResults g f
              = Ok (Join (bindings "err" results) ", " +:+ op)) /\
  FuncReturnOK g f
  = Ok (Join ((fun b => if String.eqb b "err" then "nil" else b)
              <$> bindings "err" results) ", ") /\
  length (bindings "err" results) = length results /\
  (forall r s, last results = Some r -> Type' r = "error" ->
     FuncReturnErr g f = Ok s ->
     exists vs, mapM emptyValue (OriginalType <$> nonTerminal results) = Ok vs /\
                S (length vs) = length results /\
                s = match vs with [] => "" | _ => Join vs ", " +:+ "," end).
Proof.
  intros Hr. split; [|split; [|split]].
  - unfold FuncResults. rewrite Hr. cbn [orErrorf mbind result_bind].
    rewrite resultArguments_loop_all.
    destruct results as [|r0 rest].
    + eexists. reflexivity.
    + change (index (r0 :: rest) 0) with (Some r0).
      destruct (len_ (bindings "err" (r0 :: rest)) =? 1);
        eexists; reflexivity.
  - rewrite (FuncReturnOK_spec g f results Hr). do 2 f_equal.
    unfold bindings. apply list_eq. intros i.
    rewrite list_lookup_fmap, !list_lookup_imap.
    destruct (lookup (M:=list Param) i results) as [r|]; [|reflexivity]. cbn.
    case_decide; [reflexivity|].
    now destruct (String.eqb_spec ("arg" +:+ itoa (Z.of_nat i)) "err").
  - apply length_bindings.
  - intros r s Hl Ht Hs. rewrite (FuncReturnErr_spec g f results Hr) in Hs.
    destruct (mapM emptyValue (OriginalType <$> nonTerminal results))
      as [vs|e|a] eqn:Hm; cbn in Hs; try discriminate.
    exists vs. split; [reflexivity|]. split.
    + rewrite (mapM_length _ _ _ Hm), length_fmap.
      now apply (length_nonTerminal results r).
    + now inversion Hs.
Qed.

(** [Do(ctx, req)] returns what it bound. *)
Lemma returns_match_results_witness :
  generator.FuncResults (sampleGenerator []) (VSignature sigDo)
  = Ok (paramsOf false (Results sigDo)) /\
  FuncReturnOK (sampleGenerator []) (VSignature sigDo) = Ok "arg0, nil" /\
  FuncResults (sampleGenerator []) (VSignature sigDo) = Ok "arg0, err := ".
Proof.
  split; [reflexivity|]. split; [|reflexivity].
  exact (proj1 (proj2 (returns_match_results (sampleGenerator [])
                         (VSignature sigDo) (paramsOf false (Results sigDo))
                         eq_refl))).
Defined.

(** ** The adapter on short parameter lists *)

(** X4. The adapter forwards nothing for a method with at most one
    parameter, and it never forwards a parameter under the name [req]:
    that name is given to the second of exactly two parameters, which is
    the one the adapter drops. *)
Theorem FuncCallGRPCAdapter_never_req
    (g : generator.Generator) (f : value) (params : ParamSet) :
  generator.FuncParams g f = Ok params ->
  ((length params <= 1)%nat -> FuncCallGRPCAdapter g f = Ok "") /\
  ~ In "req" (removelast (paramNames params)) /\
  (forall c r, params = [c; r] ->
     FuncCall g f = Ok (nameAt params 0 +:+ ", req") /\
     FuncCallGRPCAdapter g f = Ok (nameAt params 0)).
Proof.
  intros Hp.
  assert (Hloop : FuncCallGRPCAdapter g f
                  = Ok (Join (removelast (paramNames params)) ", ")).
  { unfold FuncCallGRPCAdapter. rewrite Hp. cbn [orErrorf mbind result_bind].
    pose proof (FuncCallGRPCAdapter_names_spec params [] params [] eq_refl)
      as Hs.
    change (len_ (@nil Param)) with 0 in Hs. rewrite Hs.
    unfold paramNames. now rewrite removelast_map, removelast_indices. }
  split; [|split].
  - intros Hl. rewrite Hloop. destruct params as [|p [|q params]];
      [reflexivity|reflexivity|cbn in Hl; lia].
  - unfold paramNames. rewrite removelast_map, removelast_indices.
    intros Hin. apply in_map_iff in Hin as [i [Hi Hin]].
    unfold indices in Hin. apply in_map_iff in Hin as [k [<- Hk]].
    apply in_seq in Hk.
    unfold nameAt, paramName in Hi.
    destruct (index params (Z.of_nat k)) as [p|]; [|discriminate].
    destruct (_ && _); [discriminate|].
    destruct (Z.eqb_spec (len_ params) 2) as [Hl|Hl];
      destruct (Z.eqb_spec (Z.of_nat k) 1) as [Hk1|Hk1]; cbn [andb] in Hi;
      try discriminate.
    unfold len_ in Hl. lia.
  - intros c r ->. split.
    + unfold FuncCall. rewrite Hp. cbn [orErrorf mbind result_bind].
      rewrite FuncCall_names_all. unfold paramNames. cbn [length indices seq map].
      replace (nameAt [c; r] (Z.of_nat 1)) with "req"; [reflexivity|].
      unfold nameAt, paramName.
      change (index [c; r] (Z.of_nat 1)) with (Some r).
      cbv beta iota.
      now destruct (String.eqb (Type' r) "context.Context").
    + rewrite Hloop. reflexivity.
Qed.

(** The adapter on [Do(ctx, req)]: only [ctx] is forwarded. *)
Lemma FuncCallGRPCAdapter_never_req_witness :
  generator.FuncParams (sampleGenerator []) (VSignature sigDo)
  = Ok (paramsOf false (Params sigDo)) /\
  FuncCall (sampleGenerator []) (VSignature sigDo) = Ok "ctx, req" /\
  FuncCallGRPCAdapter (sampleGenerator []) (VSignature sigDo) = Ok "ctx".
Proof.
  split; [reflexivity|].
  exact (proj2 (proj2 (FuncCallGRPCAdapter_never_req (sampleGenerator [])
                         (VSignature sigDo) (paramsOf false (Params sigDo))
                         eq_refl)) _ _ eq_refl).
Defined.

(** ** The collected methods *)
Section CollectFacts.

Lemma collect_lookup_gen (t : list Func) (mths : gmap string Signature)
    (name : string) (sig : Signature) :
  NoDup (FuncName <$> t) ->
  collect t mths !! name = Some sig <->
  In (mkFunc name sig) t \/
  (~ In name (FuncName <$> t) /\ mths !! name = Some sig).
Proof.
  revert mths. induction t as [|[n s] t IH]; intros mths Hnd.
  - cbn. tauto.
  - cbn [fmap list_fmap FuncName] in Hnd. apply NoDup_cons in Hnd as [Hn Hnd].
    cbn [collect foldl]. change (foldl _ ?m t) with (collect t m).
    rewrite (IH _ Hnd). cbn [FuncName FuncType fmap list_fmap In].
    rewrite list_elem_of_In in Hn.
    destruct (decide (n = name)) as [->|Hne].
    + rewrite lookup_insert_eq. split.
      * intros [Hin|[Hnin Heq]].
        -- exfalso. apply Hn. apply in_map_iff.
           exists (mkFunc name sig). now split.
        -- inversion Heq. now left; left.
      * intros [[Heq|Hin]|[Hnin _]].
        -- inversion Heq. right. now split.
        -- exfalso. apply Hn. apply in_map_iff.
           exists (mkFunc name sig). now split.
        -- exfalso. apply Hnin. now left.
    + rewrite lookup_insert_ne by exact Hne. split.
      * intros [Hin|[Hnin Heq]]; [now left; right|].
        right. split; [|exact Heq]. intros [Heq'|Hin]; auto.
      * intros [[Heq|Hin]|[Hnin Heq]].
        -- inversion Heq. contradiction.
        -- now left.
        -- right. split; [|exact Heq]. intros Hin. apply Hnin. now right.
Qed.

End CollectFacts.

(** X5. When every method of the interface passes the validators, the
    methods stored are exactly the methods of the interface: looking a
    name up gives the signature of the method of that name, and no other
    name is stored. *)
Theorem processInterface_stores_methods
    {W : Type} (vs : list (validatorFunc W)) (t : list Func)
    (mths : gmap string Signature) (w w1 : W) :
  NoDup (FuncName <$> t) ->
  processInterface_loop vs t ∅ w = (None, mths, w1) ->
  (forall name sig, mths !! name = Some sig <-> In (mkFunc name sig) t) /\
  (forall name, mths !! name = None <-> ~ In name (FuncName <$> t)).
Proof.
  intros Hnd Hl. apply processInterface_loop_pass in Hl as ->.
  assert (H : forall name sig,
            collect t ∅ !! name = Some sig <-> In (mkFunc name sig) t).
  { intros name sig. rewrite (collect_lookup_gen t ∅ name sig Hnd).
    rewrite lookup_empty. split; [intros [H|[_ H]]|]; auto. discriminate. }
  split; [exact H|].
  intros name. split.
  - intros Hnone Hin. apply in_map_iff in Hin as [[n s] [<- Hin]].
    apply H in Hin. cbn [FuncName] in Hnone. congruence.
  - intros Hnin. destruct (collect t ∅ !! name) as [sig|] eqn:E;
      [|reflexivity].
    exfalso. apply Hnin. apply H in E. apply in_map_iff.
    exists (mkFunc name sig). now split.
Qed.

(** The methods stored for an interface with [Close] and [Do]. *)
Lemma processInterface_stores_methods_witness :
  processInterface_loop [recordingFn]
    [mkFunc "Close" sigClose; mkFunc "Do" sigDo] ∅ []
  = (None, collect [mkFunc "Close" sigClose; mkFunc "Do" sigDo] ∅,
     ["validate (ctx context.Context) error";
      "validate (ctx context.Context, in *pkg.Request) (*pkg.Response, error)"]) /\
  collect [mkFunc "Close" sigClose; mkFunc "Do" sigDo] ∅ !! "Do" = Some sigDo.
Proof.
  split; [reflexivity|].
  refine (proj2 (proj1 (processInterface_stores_methods [recordingFn]
            [mkFunc "Close" sigClose; mkFunc "Do" sigDo] _ [] _ _ eq_refl)
            "Do" sigDo) _).
  - repeat constructor; cbn; rewrite ?list_elem_of_In; cbn;
      intros H; intuition discriminate.
  - cbn. auto.
Defined.

(** ** The validator of the command *)
Section ValidatorFacts.

Context {W : Type}.



End ValidatorFacts.



(** ** How [Generate] ends *)
Section GenerateEnds.

Context {W Program : Type} (tc : Toolchain W Program).




End GenerateEnds.

(** X7. [Generate] returns without an error only after every step has
    succeeded: both packages were found, the program was loaded, the walk
    stored no error, the template was processed over the methods the walk
    collected, and that text was written to the output file. *)
Theorem Generate_success
    {W Program : Type} (tc : Toolchain W Program) (g : Generator W)
    (template : Template)
    (sourcePackage interfaceName outputFile outputStruct : string)
    (w w2 : W) :
  Generate tc g template sourcePackage interfaceName outputFile outputStruct w
  = (Ok tt, w2) ->
  exists sourcePath destPath program v w1 text,
    PackageOf tc sourcePackage = Ok sourcePath /\
    PackageOf tc (Dir tc outputFile) = Ok destPath /\
    createProgram tc g sourcePath destPath = Ok program /\
    walkFiles (mkVisitor (New tc program) ∅ interfaceName (validators_ g) None)
      (PackageFiles tc program sourcePath) w = (Ok v, w1) /\
    err v = None /\
    ProcessTemplate tc
      (configure (New tc program) sourcePath destPath interfaceName
         outputStruct)
      "interface" template (methods v) = Ok text /\
    WriteToFilename tc
      (configure (New tc program) sourcePath destPath interfaceName
         outputStruct)
      text outputFile w1 = (None, w2).
Proof.
  unfold Generate, processAndWrite. intros H.
  destruct (PackageOf tc sourcePackage) as [sourcePath|e|a];
    cbn [wrap mbind result_bind] in H; try discriminate.
  destruct (PackageOf tc (Dir tc outputFile)) as [destPath|e|a];
    cbn [wrap mbind result_bind] in H; try discriminate.
  destruct (createProgram tc g sourcePath destPath) as [program|e|a] eqn:Hp;
    cbn [wrap mbind result_bind] in H; try discriminate.
  destruct (walkFiles _ _ w) as [[v|e|a] w1] eqn:Hw; try discriminate.
  destruct (err v) eqn:He; try discriminate.
  destruct (ProcessTemplate tc _ _ _ _) as [text|e|a] eqn:Ht;
    try discriminate.
  destruct (WriteToFilename tc _ _ _ _) as [[e|] w2'] eqn:Hwr;
    try discriminate.
  inversion H; subst.
  exists sourcePath, destPath, program, v, w1, text. repeat split; auto.
Qed.

(** [Generate] asked for [Missing] returns without an error. *)
Lemma Generate_success_witness :
  exists v text,
    walkFiles (mkVisitor (sampleGenerator sampleTypes) ∅ "Missing"
                 [recordingFn] None) samplePackage [] = (Ok v, []) /\
    err v = None /\
    render (configure (sampleGenerator sampleTypes) "." "." "Missing"
              "MissingMutex") mutexTemplate (methods v) = Ok text.
Proof.
  destruct (Generate_success (sampleToolchain samplePackage sampleTypes)
              (NewGenerator mutexTemplate [recordingFn]) mutexTemplate
              "." "Missing" "out.go" "MissingMutex" [] ["write out.go"]
              eq_refl)
    as (sp & dp & prog & v & w1 & text & Hs & Hd & Hp & Hw & He & Ht & Hwr).
  cbn in Hs, Hd, Hp. inversion Hs; inversion Hd; inversion Hp; subst.
  cbn [sampleToolchain WriteToFilename] in Hwr.
  inversion Hwr as [Hw1]. apply (app_inv_tail _ w1 []) in Hw1. subst w1.
  exists v, text. repeat split; assumption.
Defined.





(** ** Rendering a template *)
Section RenderFacts.

Variable funcs : list (string * templateFunc).
Variable data : list (string * Signature).

Lemma exec_If_eq env fn x thn els :
  exec funcs data env (If fn x thn els)
  = (v ← variable env x;
     c ← apply funcs fn v;
     if truth c then execList funcs data env thn
     else execList funcs data env els).
Proof. reflexivity. Qed.

Lemma exec_Range_eq env k v body :
  exec funcs data env (Range k v body)
  = execEntries funcs data k v env body data.
Proof.
  cbn [exec].
  match goal with
  | |- ?F ?d = execEntries _ _ _ _ _ _ ?d =>
      assert (H : forall entries,
                F entries = execEntries funcs data k v env body entries);
      [|apply H]
  end.
  induction entries as [|[name sig] entries IH]; [reflexivity|].
  cbn [execEntries]. rewrite <- IH. reflexivity.
Qed.

Lemma execList_Ok_In env (l : list Action) (s : string) :
  execList funcs data env l = Ok s ->
  forall a, In a l -> exists s', exec funcs data env a = Ok s'.
Proof.
  revert s. induction l as [|b l IH]; intros s H a Hin; [contradiction|].
  cbn [execList] in H.
  destruct (exec funcs data env b) as [s1|e|ab] eqn:Hb;
    cbn [mbind result_bind] in H; try discriminate.
  destruct (execList funcs data env l) as [s2|e|ab];
    cbn [mbind result_bind] in H; try discriminate.
  destruct Hin as [<-|Hin]; [now exists s1|]. exact (IH s2 eq_refl a Hin).
Qed.

Lemma execEntries_Ok_In env k v body (entries : list (string * Signature))
    (s : string) :
  execEntries funcs data k v env body entries = Ok s ->
  forall name sig, In (name, sig) entries ->
  exists s', execList funcs data
               ((k, VString name) :: (v, VSignature sig) :: env) body = Ok s'.
Proof.
  revert s. induction entries as [|[n sg] entries IH]; intros s H name sig Hin;
    [contradiction|].
  cbn [execEntries] in H.
  destruct (execList funcs data _ body) as [s1|e|ab] eqn:Hb;
    cbn [mbind result_bind] in H; try discriminate.
  destruct (execEntries funcs data k v env body entries) as [s2|e|ab];
    cbn [mbind result_bind] in H; try discriminate.
  destruct Hin as [Heq|Hin].
  - inversion Heq; subst. now exists s1.
  - exact (IH s2 eq_refl name sig Hin).
Qed.

Lemma exec_Call_Ok env fn x v f s :
  exec funcs data env (Call fn x) = Ok s ->
  lookup_assoc env x = Some v ->
  lookup_assoc funcs fn = Some f ->
  exists r, f v = Ok r.
Proof.
  cbn [exec]. unfold variable, apply. intros H Hx Hf.
  rewrite Hx in H. cbn [mbind result_bind] in H. rewrite Hf in H.
  destruct (f v) as [r|e|a]; try discriminate. now exists r.
Qed.

Lemma callsIn_Ok env fn l v f s :
  callsIn fn l = true ->
  execList funcs data env l = Ok s ->
  lookup_assoc env "$method" = Some v ->
  lookup_assoc funcs fn = Some f ->
  exists r, f v = Ok r.
Proof.
  intros Hc Hl Hx Hf. unfold callsIn in Hc.
  apply existsb_exists in Hc as [a [Hin Ha]].
  destruct a as [| |f' x| |]; try discriminate.
  apply andb_true_iff in Ha as [Hf' Hx'].
  apply String.eqb_eq in Hf', Hx'. subst f' x.
  destruct (execList_Ok_In env l s Hl _ Hin) as [s' Hs'].
  exact (exec_Call_Ok env fn "$method" v f s' Hs' Hx Hf).
Qed.

End RenderFacts.

(** X10. [mutates] holds of every method, so a conditional on it always
    renders its first branch: in the transaction template, the only one
    that asks, every method is wrapped in a transaction and the other
    branch is never rendered. *)
Theorem mutates_takes_first_branch (g : generator.Generator) :
  (forall data env x v thn els,
     lookup_assoc env x = Some v ->
     exec (registeredFuncs g) data env (If "mutates" x thn els)
     = execList (registeredFuncs g) data env thn) /\
  (forall name t,
     In (name, t) Templates ->
     templateInvokes "mutates" t = true <-> name = "sqltx").
Proof.
  split.
  - intros data env x v thn els Hx. rewrite exec_If_eq.
    unfold variable. rewrite Hx. reflexivity.
  - intros name t Hin. simpl in Hin.
    destruct Hin as [H|[H|[H|[H|[]]]]]; inversion H; subst; clear H;
      vm_compute; split; congruence.
Qed.

(** A conditional on [mutates] for the method [Get]. *)
Lemma mutates_takes_first_branch_witness :
  exec (registeredFuncs (sampleGenerator [])) []
    [("$methodName", VString "Get")]
    (If "mutates" "$methodName" [Text "tx"] [Text "db"])
  = Ok "tx".
Proof.
  exact (proj1 (mutates_takes_first_branch (sampleGenerator [])) []
           [("$methodName", VString "Get")] "$methodName" (VString "Get")
           [Text "tx"] [Text "db"] eq_refl).
Defined.

(** X11. A template renders only if, for every method collected, the
    signature, the assignment of the results and both return lists can be
    built: when one of them fails or panics for one method, nothing is
    rendered, for each of the four templates. *)
Theorem render_needs_every_method
    (g : generator.Generator) (pkg : string) (vs imps : list (string * string))
    (name : string) (t : Template) (data : gmap string Signature)
    (mname : string) (sig : Signature) (text : string) :
  In (name, t) Templates ->
  data !! mname = Some sig ->
  render (mkSettings pkg vs (registeredFuncs g) imps) t data = Ok text ->
  (exists s, FuncSignature g (VSignature sig) = Ok s) /\
  (exists s, FuncResults g (VSignature sig) = Ok s) /\
  (exists s, FuncReturnErr g (VSignature sig) = Ok s) /\
  (exists s, FuncReturnOK g (VSignature sig) = Ok s).
Proof.
  intros Hin Hd Hr.
  assert (Hentry : In (mname, sig) (sortedMethods data)).
  { unfold sortedMethods. apply list_elem_of_In.
    rewrite merge_sort_Permutation. now apply elem_of_map_to_list. }
  assert (Hgen : forall fn f,
            callsPerMethod fn t = true ->
            lookup_assoc (registeredFuncs g) fn = Some f ->
            exists r, f (VSignature sig) = Ok r).
  { intros fn f Hc Hf. unfold callsPerMethod in Hc.
    apply existsb_exists in Hc as [a [Ha Hc]].
    destruct a as [| | | |k v body]; try discriminate.
    apply andb_true_iff in Hc as [Hkv Hreach].
    apply andb_true_iff in Hkv as [Hk Hv].
    apply String.eqb_eq in Hk, Hv. subst k v.
    unfold render in Hr. cbn [templateFuncs] in Hr.
    destruct (execList_Ok_In _ _ _ _ _ Hr _ Ha) as [s1 Hs1].
    rewrite exec_Range_eq in Hs1.
    destruct (execEntries_Ok_In _ _ _ _ _ _ _ _ Hs1 _ _ Hentry)
      as [s2 Hs2].
    unfold reaches in Hreach. apply orb_true_iff in Hreach as [Hc|Hc].
    - exact (callsIn_Ok _ _ _ _ _ _ _ _ Hc Hs2 eq_refl Hf).
    - apply existsb_exists in Hc as [a [Hina Hc]].
      destruct a as [| | |f' x thn els|]; try discriminate.
      apply andb_true_iff in Hc as [Hfx Hc].
      apply andb_true_iff in Hfx as [Hf' Hx].
      apply String.eqb_eq in Hf', Hx. subst f' x.
      destruct (execList_Ok_In _ _ _ _ _ Hs2 _ Hina) as [s3 Hs3].
      rewrite exec_If_eq in Hs3. cbn in Hs3.
      exact (callsIn_Ok _ _ _ _ _ _ _ _ Hc Hs3 eq_refl Hf). }
  assert (Hcalls : callsPerMethod "signature" t = true /\
                   callsPerMethod "results" t = true /\
                   callsPerMethod "returnerr" t = true /\
                   callsPerMethod "returnok" t = true).
  { simpl in Hin.
    destruct Hin as [H|[H|[H|[H|[]]]]]; inversion H; subst; clear H;
      vm_compute; auto. }
  destruct Hcalls as (H1 & H2 & H3 & H4).
  repeat split.
  - destruct (Hgen "signature" _ H1 eq_refl) as [r Hr1]. cbn [snd] in Hr1.
    destruct (FuncSignature g (VSignature sig)) as [s|e|a];
      try (cbn in Hr1; discriminate). now exists s.
  - destruct (Hgen "results" _ H2 eq_refl) as [r Hr1]. cbn [snd] in Hr1.
    destruct (FuncResults g (VSignature sig)) as [s|e|a];
      try (cbn in Hr1; discriminate). now exists s.
  - destruct (Hgen "returnerr" _ H3 eq_refl) as [r Hr1]. cbn [snd] in Hr1.
    destruct (FuncReturnErr g (VSignature sig)) as [s|e|a];
      try (cbn in Hr1; discriminate). now exists s.
  - destruct (Hgen "returnok" _ H4 eq_refl) as [r Hr1]. cbn [snd] in Hr1.
    destruct (FuncReturnOK g (VSignature sig)) as [s|e|a];
      try (cbn in Hr1; discriminate). now exists s.
Qed.

(** The mutex decorator of an interface with the method [Get] renders,
    so the helpers of [Get] succeed. *)
Lemma render_needs_every_method_witness :
  (exists text,
     render (mkSettings "pkg" [("structName", "S"); ("interfaceName", "I")]
               (registeredFuncs (sampleGenerator [])) [])
       mutexTemplate {["Get" := sigGet]} = Ok text) /\
  exists s, FuncReturnErr (sampleGenerator []) (VSignature sigGet) = Ok s.
Proof.
  assert (Hr : render (mkSettings "pkg"
                         [("structName", "S"); ("interfaceName", "I")]
                         (registeredFuncs (sampleGenerator [])) [])
                 mutexTemplate {["Get" := sigGet]}
               = Ok (match render (mkSettings "pkg"
                                     [("structName", "S");
                                      ("interfaceName", "I")]
                                     (registeredFuncs (sampleGenerator [])) [])
                             mutexTemplate {["Get" := sigGet]} with
                     | Ok text => text
                     | _ => ""
                     end))
    by (vm_compute; reflexivity).
  split; [eexists; exact Hr|].
  refine (proj1 (proj2 (proj2 (render_needs_every_method (sampleGenerator [])
            "pkg" [("structName", "S"); ("interfaceName", "I")] []
            "mutex" mutexTemplate {["Get" := sigGet]} "Get" sigGet _
            _ _ Hr)))).
  - cbn. auto.
  - apply lookup_singleton_eq.
Defined.

(** ** The command *)
Section ExecuteFacts2.

Lemma Templates_lookup (k : string) :
  lookup_assoc Templates k = None <-> ~ In k decoratorTypes.
Proof.
  unfold lookup_assoc, Templates, decoratorTypes. cbn [List.find fst In].
  destruct (String.eqb_spec "sqltx" k) as [<-|H1]; cbn [fmap option_fmap option_map].
  { split; [discriminate|]. intros H. exfalso. apply H. auto. }
  destruct (String.eqb_spec "trace" k) as [<-|H2]; cbn [fmap option_fmap option_map].
  { split; [discriminate|]. intros H. exfalso. apply H. auto. }
  destruct (String.eqb_spec "grpcadapter" k) as [<-|H3];
    cbn [fmap option_fmap option_map].
  { split; [discriminate|]. intros H. exfalso. apply H. auto. }
  destruct (String.eqb_spec "mutex" k) as [<-|H4];
    cbn [fmap option_fmap option_map].
  { split; [discriminate|]. intros H. exfalso. apply H. auto. }
  split; [|reflexivity]. intros _ [H|[H|[H|[H|[]]]]]; contradiction.
Qed.

End ExecuteFacts2.

(** X12. [Execute] prints the usage and exits, before anything is
    generated, exactly when the interface name or the output file is
    empty, the number of arguments is not one, or the decorator type is
    not one of [sqltx], [trace], [grpcadapter] and [mutex].  Otherwise it
    runs [Generate] with the template of that type and the validator
    [fn]; with no struct name given the struct is called
    [<interface>Tracer], whatever the decorator type. *)
Theorem Execute_usage
    {W Program : Type} (tc : Toolchain W Program) (flags : cmd.Flags) (w : W) :
  let invalid :=
    cmd.interfaceName flags = "" \/ cmd.outputFile flags = "" \/
    length (cmd.args flags) <> 1%nat \/
    ~ In (cmd.decType flags) decoratorTypes in
  (invalid -> cmd.Execute tc flags w = (cmd.Usage, w)) /\
  (fst (cmd.Execute tc flags w) = cmd.Usage -> invalid) /\
  (~ invalid ->
   exists template arg,
     lookup_assoc Templates (cmd.decType flags) = Some template /\
     cmd.args flags = [arg] /\
     cmd.Execute tc flags w
     = match Generate tc (NewGenerator template [fn]) template arg
               (cmd.interfaceName flags) (cmd.outputFile flags)
               (if String.eqb (cmd.structName flags) ""
                then cmd.interfaceName flags +:+ "Tracer"
                else cmd.structName flags) w with
       | (Ok _, w') => (cmd.Returned, w')
       | (Err e, w') => (cmd.Fatal e, w')
       | (Abort a, w') => (cmd.Stopped a, w')
       end).
Proof.
  intros invalid. unfold cmd.Execute.
  pose proof (Templates_lookup (cmd.decType flags)) as Hl.
  destruct (String.eqb_spec (cmd.interfaceName flags) "") as [Hi|Hi];
    cbn [orb].
  { repeat split; try reflexivity; try (intros; left; exact Hi).
    intros Hn. exfalso. apply Hn. now left. }
  destruct (String.eqb_spec (cmd.outputFile flags) "") as [Ho|Ho];
    cbn [orb].
  { repeat split; try reflexivity; try (intros; right; left; exact Ho).
    intros Hn. exfalso. apply Hn. right. now left. }
  destruct (Z.eqb_spec (len_ (cmd.args flags)) 1) as [Ha|Ha];
    cbn [negb orb].
  2:{ assert (Hlen : length (cmd.args flags) <> 1%nat)
        by (unfold len_ in Ha; lia).
      repeat split; try reflexivity;
        try (intros; right; right; left; exact Hlen).
      intros Hn. exfalso. apply Hn. right. right. now left. }
  assert (Hlen : length (cmd.args flags) = 1%nat) by (unfold len_ in Ha; lia).
  destruct (String.eqb_spec (cmd.decType flags) "") as [Hd|Hd].
  { assert (Hnin : ~ In (cmd.decType flags) decoratorTypes).
    { rewrite Hd. cbn. intros [H|[H|[H|[H|[]]]]]; discriminate. }
    repeat split; try reflexivity;
      try (intros; right; right; right; exact Hnin).
    intros Hn. exfalso. apply Hn. right. right. now right. }
  destruct (lookup_assoc Templates (cmd.decType flags)) as [template|] eqn:Ht.
  - assert (Hin : In (cmd.decType flags) decoratorTypes).
    { destruct (In_dec string_dec (cmd.decType flags) decoratorTypes)
        as [Hin|Hnin]; [exact Hin|].
      apply Hl in Hnin. discriminate. }
    split; [|split].
    + intros [H|[H|[H|H]]]; contradiction.
    + destruct (Generate tc _ _ _ _ _ _ w) as [[u|e|a] w']; discriminate.
    + intros _. destruct (cmd.args flags) as [|arg [|arg2 rest]];
        try discriminate.
      exists template, arg. repeat split.
  - assert (Hnin : ~ In (cmd.decType flags) decoratorTypes)
      by (now apply Hl).
    repeat split; try reflexivity;
      try (intros; right; right; right; exact Hnin).
    intros Hn. exfalso. apply Hn. right. right. now right.
Qed.

(** [Execute] with the decorator type [tracer], which does not exist. *)
Lemma Execute_usage_witness :
  cmd.Execute (sampleToolchain samplePackage sampleTypes)
    (cmd.mkFlags "Service" "" "out.go" "tracer" ["."]) []
  = (cmd.Usage, []).
Proof.
  refine (proj1 (Execute_usage (sampleToolchain samplePackage sampleTypes)
                   (cmd.mkFlags "Service" "" "out.go" "tracer" ["."]) []) _).
  right. right. right. cbn. intros [H|[H|[H|[H|[]]]]]; discriminate.
Defined.

(** ** Methods without a terminal error *)


